(** * extract_pdf.py: the payroll text parser of [DataExtractor]

    A shallow embedding of [src/extract_pdf.py] and the properties of its
    line parser.  A Python [str] is a sequence of Unicode code points, the
    [re] patterns are syntax trees run by a backtracking matcher, a [float]
    is an IEEE binary64 ([spec_float] with [prec = 53] and [emax = 1024]),
    exceptions are an error monad, and the dict behind [current_employee]
    is reached through its index in [self.data['employees']]. *)

From Stdlib Require Import ZArith Bool Lia String Ascii.
From Stdlib Require Import Floats.SpecFloat.
From stdpp Require Import base list.

Open Scope Z_scope.

(** ** Python strings *)

(** A character is its Unicode code point; a [str] is a list of them. *)
Definition char := Z.
Definition str := list char.

(** An ASCII literal as a [str]. *)
Definition str_of (s : string) : str :=
  map (fun a => Z.of_N (N_of_ascii a)) (list_ascii_of_string s).

(** U+2013 EN DASH, the non-ASCII character of the header pattern. *)
Definition EN_DASH : char := 8211.

(** [str.isspace] on one character, which is also [\s] of a [str] pattern:
    CPython's [_PyUnicode_IsWhitespace]. *)
Definition is_space (c : char) : bool :=
  ((9 <=? c) && (c <=? 13)) || ((28 <=? c) && (c <=? 32))
  || (c =? 133) || (c =? 160) || (c =? 5760)
  || ((8192 <=? c) && (c <=? 8202))
  || (c =? 8232) || (c =? 8233) || (c =? 8239) || (c =? 8287)
  || (c =? 12288).

(** The code points of the digit zero of every run of ten decimal digits
    (general category Nd) of the Unicode 15 database, the table behind
    [\d] of a [str] pattern and behind the digits [float] accepts. *)
Definition decimal_zeros : list Z :=
  [ 48; 1632; 1776; 1984; 2406; 2534; 2662; 2790; 2918; 3046; 3174; 3302;
    3430; 3558; 3664; 3792; 3872; 4160; 4240; 6112; 6160; 6470; 6608; 6784;
    6800; 6992; 7088; 7232; 7248; 42528; 43216; 43264; 43472; 43504; 43600;
    44016; 65296; 66720; 68912; 69734; 69872; 69942; 70096; 70384; 70736;
    70864; 71248; 71360; 71472; 71904; 72016; 72784; 73040; 73120; 73552;
    92768; 92864; 93008; 120782; 120792; 120802; 120812; 120822; 123200;
    123632; 124144; 125264; 130032 ].

(** [Py_UNICODE_TODECIMAL]: the value of a decimal digit. *)
Fixpoint decimal_in (zeros : list Z) (c : char) : option Z :=
  match zeros with
  | [] => None
  | z :: zs => if (z <=? c) && (c <? z + 10) then Some (c - z)
               else decimal_in zs c
  end.

(** The decimal value of a character, for the characters that have one. *)
Definition to_decimal (c : char) : option Z := decimal_in decimal_zeros c.

(** [\d] *)
Definition is_digit (c : char) : bool :=
  match to_decimal c with Some _ => true | None => false end.

(** [[\d.]] *)
Definition is_numeric (c : char) : bool := is_digit c || (c =? 46).

(** The characters [re.sub(r'[^\d.-]', '', ...)] keeps. *)
Definition is_kept (c : char) : bool := is_digit c || (c =? 46) || (c =? 45).

(** [[A-Za-z]] *)
Definition is_letter (c : char) : bool :=
  ((65 <=? c) && (c <=? 90)) || ((97 <=? c) && (c <=? 122)).

(** The class of the header pattern: EN DASH or hyphen. *)
Definition is_dash (c : char) : bool := (c =? EN_DASH) || (c =? 45).

(** [not s] for a [str]: the empty string is the one that is falsy. *)
Definition is_empty (s : str) : bool :=
  match s with [] => true | _ => false end.

(** [s.lstrip()], [s.rstrip()], [s.strip()] *)
Fixpoint lstrip (s : str) : str :=
  match s with
  | c :: s' => if is_space c then lstrip s' else s
  | [] => []
  end.

Definition rstrip (s : str) : str := rev (lstrip (rev s)).
Definition strip (s : str) : str := rstrip (lstrip s).

(** [s.strip(chars)] for a one-character [chars]. *)
Fixpoint lstrip_char (x : char) (s : str) : str :=
  match s with
  | c :: s' => if c =? x then lstrip_char x s' else s
  | [] => []
  end.

Definition strip_char (x : char) (s : str) : str :=
  rev (lstrip_char x (rev (lstrip_char x s))).

(** [text.split('\n')]: never empty, one more piece than line feeds. *)
Fixpoint split_lines (text : str) : list str :=
  match text with
  | [] => [[]]
  | c :: text' =>
      if c =? 10 then [] :: split_lines text'
      else match split_lines text' with
           | l :: ls => (c :: l) :: ls
           | [] => [[c]]
           end
  end.

(** [s.startswith(needle)] *)
Fixpoint starts_with (needle s : str) : bool :=
  match needle, s with
  | [], _ => true
  | x :: needle', c :: s' => (x =? c) && starts_with needle' s'
  | _ :: _, [] => false
  end.

(** [needle in s] *)
Fixpoint contains (needle s : str) : bool :=
  starts_with needle s ||
  match s with
  | [] => false
  | _ :: s' => contains needle s'
  end.

(** [s == t] *)
Fixpoint str_eqb (s t : str) : bool :=
  match s, t with
  | [], [] => true
  | c :: s', d :: t' => (c =? d) && str_eqb s' t'
  | _, _ => false
  end.

(** ** Exceptions *)

(** The exceptions of the modelled code. *)
Inductive exn := ValueError | AttributeError | IndexError.

(** A computation returns a value or raises. *)
Inductive result (A : Type) :=
| Ok (a : A)
| Raise (e : exn).
Arguments Ok {A} a.
Arguments Raise {A} e.

(** One statement after another: an exception ends the sequence. *)
Definition rbind {A B : Type} (m : result A) (f : A -> result B) : result B :=
  match m with
  | Ok a => f a
  | Raise e => Raise e
  end.

Declare Scope py_scope.
Delimit Scope py_scope with py.
Notation "'do' x <- m ; k" := (rbind m (fun x => k))
  (at level 10, x name, m at level 100, k at level 200) : py_scope.
Open Scope py_scope.

(** ** Floats *)

(** A Python [float]: IEEE 754 binary64. *)
Definition float := spec_float.

(** The precision and the exponent bound of binary64. *)
Definition prec : Z := 53.
Definition emax : Z := 1024.

(** The binary64 nearest to [m / 10^k] (ties to even), with sign [neg];
    the conversion [float] applies to a decimal numeral. *)
Definition float_of_decimal (neg : bool) (m : Z) (k : Z) : float :=
  match m with
  | Z0 => S754_zero neg
  | _ =>
      let '(q, e, l) := SFdiv_core_binary prec emax m 0 (10 ^ k) 0 in
      binary_round_aux prec emax neg q e l
  end.

(** [float(n)] for an integer [n]; exact below [2^53] in magnitude. *)
Definition float_of_int (n : Z) : float := binary_normalize prec emax n 0 false.

(** A run of decimal digits read as a number in base ten. *)
Fixpoint digits_value (acc : Z) (s : str) : option Z :=
  match s with
  | [] => Some acc
  | c :: s' =>
      match to_decimal c with
      | Some d => digits_value (10 * acc + d) s'
      | None => None
      end
  end.

(** Splits at the first decimal point, if there is one. *)
Fixpoint split_point (s : str) : str * option str :=
  match s with
  | [] => ([], None)
  | c :: s' =>
      if c =? 46 then ([], Some s')
      else let '(a, b) := split_point s' in (c :: a, b)
  end.

(** [float(s)] for a string over decimal digits, ['.'] and ['-'], the only
    strings [clean_currency] gives it.  On this alphabet the grammar of
    [float] leaves an optional minus sign and then digits with an optional
    point, at least one digit on one side of it; anything else raises
    [ValueError].  The exponent, underscore, sign ['+'], [inf] and [nan]
    forms need characters outside the alphabet. *)
Definition float_of_str (s : str) : result float :=
  let '(neg, body) :=
    match s with
    | c :: s' => if c =? 45 then (true, s') else (false, s)
    | [] => (false, s)
    end in
  let '(ip, fp) := split_point body in
  let fp := match fp with Some f => f | None => [] end in
  match ip, fp with
  | [], [] => Raise ValueError
  | _, _ =>
      match digits_value 0 (ip ++ fp) with
      | Some m => Ok (float_of_decimal neg m (Z.of_nat (length fp)))
      | None => Raise ValueError
      end
  end.

(** ** Regular expressions *)

(** The constructs the three patterns of [parse_text_data] are written
    with.  Every quantifier of the source stands on a character class, so
    [Rep] repeats a class: [lo] to [hi] times, greedy. *)
Inductive regex :=
| Lit (l : str)                                          (* literal text *)
| One (p : char -> bool)                                 (* [...] once *)
| Rep (p : char -> bool) (lo : nat) (hi : option nat)    (* p*, p+, p{n} *)
| Bol                                                    (* ^ *)
| Grp (n : nat) (r : regex)                              (* ( ... ), group n *)
| Cat (r1 r2 : regex).

Declare Scope re_scope.
Delimit Scope re_scope with re.
Infix "@@" := Cat (at level 60, right associativity) : re_scope.

(** [p*], [p+] and [p{n}] *)
Definition star (p : char -> bool) : regex := Rep p 0 None.
Definition plus (p : char -> bool) : regex := Rep p 1 None.
Definition exactly (n : nat) (p : char -> bool) : regex := Rep p n (Some n).

(** The text of the groups that took part in a match, latest first. *)
Definition groups := list (nat * str).

(** The text of group [n], for a group that took part. *)
Fixpoint group_lookup (n : nat) (g : groups) : option str :=
  match g with
  | [] => None
  | (m, v) :: g' => if Nat.eqb m n then Some v else group_lookup n g'
  end.

(** The upper bound of a quantifier allows no further repetition. *)
Definition exhausted (hi : option nat) : bool :=
  match hi with Some O => true | _ => false end.

(** The greedy quantifier of a backtracking matcher: take one more
    character while the class and the upper bound allow, and give up
    characters one at a time when what follows the quantifier fails. *)
Fixpoint rep {A : Type} (p : char -> bool) (lo : nat) (hi : option nat)
    (pos : nat) (s : str) (k : nat -> str -> option A) : option A :=
  let stop := match lo with O => k pos s | S _ => None end in
  match s with
  | c :: s' =>
      if p c && negb (exhausted hi) then
        match rep p (Nat.pred lo) (option_map Nat.pred hi) (S pos) s' k with
        | Some x => Some x
        | None => stop
        end
      else stop
  | [] => stop
  end.

(** The matcher, in continuation-passing style: [pos] characters of the
    line are consumed, [s] is the rest, [k] is what follows the pattern. *)
Fixpoint exec {A : Type} (r : regex) (pos : nat) (s : str) (g : groups)
    (k : nat -> str -> groups -> option A) : option A :=
  match r with
  | Lit l =>
      if starts_with l s then k (pos + length l)%nat (drop (length l) s) g
      else None
  | One p =>
      match s with
      | c :: s' => if p c then k (S pos) s' g else None
      | [] => None
      end
  | Rep p lo hi => rep p lo hi pos s (fun pos' s' => k pos' s' g)
  | Bol => if Nat.eqb pos 0 then k pos s g else None
  | Grp n r0 =>
      exec r0 pos s g
        (fun pos' s' g' => k pos' s' ((n, take (pos' - pos) s) :: g'))
  | Cat r1 r2 =>
      exec r1 pos s g (fun pos' s' g' => exec r2 pos' s' g' k)
  end.

(** A match object: the groups of a successful match. *)
Definition match_at (r : regex) (pos : nat) (s : str) : option groups :=
  exec r pos s [] (fun _ _ g => Some g).

(** [re.match(r, line)]: a match at the start of the line. *)
Definition re_match (r : regex) (line : str) : option groups :=
  match_at r 0 line.

(** The scan of [re.search]: the match at the leftmost position, from
    [pos] on, that has one. *)
Fixpoint search_from (r : regex) (pos : nat) (s : str) : option groups :=
  match match_at r pos s with
  | Some g => Some g
  | None =>
      match s with
      | [] => None
      | _ :: s' => search_from r (S pos) s'
      end
  end.

(** [re.search(r, line)] *)
Definition re_search (r : regex) (line : str) : option groups :=
  search_from r 0 line.

(** [m.group(n)].  A group that took no part in the match gives [None] in
    Python; every group of the patterns below is mandatory, and the model
    raises [IndexError] where Python would hand [None] on. *)
Definition group (m : groups) (n : nat) : result str :=
  match group_lookup n m with
  | Some v => Ok v
  | None => Raise IndexError
  end.

(** [r'^(\d+)\s*[\u2013-]\s*([A-Za-z]+,\s*[A-Za-z]+)'], the class written
    with the EN DASH character itself in the source. *)
Definition header_re : regex :=
  (Bol @@ Grp 1 (plus is_digit) @@ star is_space @@ One is_dash @@ star is_space
   @@ Grp 2 (plus is_letter @@ Lit (str_of ",") @@ star is_space @@ plus is_letter))%re.

(** [r'(Hourly-)\s+(\d{2}/\d{2}/\d{2})\s+([\d.]+)\s+([\d.]+)\s+([\d.]+)'] *)
Definition earning_re : regex :=
  (Grp 1 (Lit (str_of "Hourly-")) @@ plus is_space
   @@ Grp 2 (exactly 2 is_digit @@ Lit (str_of "/") @@ exactly 2 is_digit
             @@ Lit (str_of "/") @@ exactly 2 is_digit)
   @@ plus is_space @@ Grp 3 (plus is_numeric)
   @@ plus is_space @@ Grp 4 (plus is_numeric)
   @@ plus is_space @@ Grp 5 (plus is_numeric))%re.

(** [r'Total Earnings:\s+([\d.]+)\s+([\d.]+)'] *)
Definition total_re : regex :=
  (Lit (str_of "Total Earnings:") @@ plus is_space @@ Grp 1 (plus is_numeric)
   @@ plus is_space @@ Grp 2 (plus is_numeric))%re.

(** ** The data *)

(** One item of an employee's ['earnings'] list. *)
Record earning := {
  type : str;
  date : str;
  rate : option float;
  hours : option float;
  amount : option float
}.

(** An employee dict.  The header branch creates it with the first three
    keys; ['total_hours'] and ['total_amount'] are keys only once a total
    line has set them: [None] is a missing key, [Some None] the key with the
    value [None]. *)
Record employee := {
  employee_id : str;
  employee_name : str;
  earnings : list earning;
  total_hours : option (option float);
  total_amount : option (option float)
}.

(** [self.data], the dict with the one key ['employees']. *)
Record Data := { employees : list employee }.

(** An instance: its two attributes. *)
Record DataExtractor := { pdf_path : str; data : Data }.

(** [DataExtractor.__init__] *)
Definition init (path : str) : DataExtractor :=
  {| pdf_path := path; data := {| employees := [] |} |}.

(** ** clean_currency *)

(** [try: body except (ValueError, AttributeError): handler] *)
Definition try_except {A : Type} (body : result A) (handler : result A) : result A :=
  match body with
  | Raise ValueError | Raise AttributeError => handler
  | _ => body
  end.

(** [DataExtractor.clean_currency]; [None] is Python's [None]. *)
Definition clean_currency (value : option str) : result (option float) :=
  match value with
  | None => Ok None
  | Some v =>
      if is_empty v || is_empty (strip v) then Ok None
      else
        try_except
          (let cleaned := List.filter is_kept v in
           if is_empty cleaned then Ok None
           else do f <- float_of_str cleaned; Ok (Some f))
          (Ok None)
  end.

(** ** parse_text_data *)

(** The state of the loop: the list [self.data['employees']] and the local
    [current_employee], a reference to one of the dicts of that list, here
    its index. *)
Record loop_state := {
  st_employees : list employee;
  current_employee : option nat
}.

(** Writes through the reference [current_employee].  A reference to a dict
    cannot dangle; an index can, and the model raises [IndexError] then,
    which never happens from a state that is [valid] (below). *)
Definition update_employee (i : nat) (f : employee -> employee)
    (st : loop_state) : result loop_state :=
  match st_employees st !! i with
  | Some e =>
      Ok {| st_employees := <[i := f e]> (st_employees st);
            current_employee := current_employee st |}
  | None => Raise IndexError
  end.

(** [current_employee['earnings'].append(x)] *)
Definition append_earning (x : earning) (e : employee) : employee :=
  {| employee_id := employee_id e; employee_name := employee_name e;
     earnings := earnings e ++ [x];
     total_hours := total_hours e; total_amount := total_amount e |}.

(** [current_employee['total_hours'] = h] and
    [current_employee['total_amount'] = a] *)
Definition set_totals (h a : option float) (e : employee) : employee :=
  {| employee_id := employee_id e; employee_name := employee_name e;
     earnings := earnings e;
     total_hours := Some h; total_amount := Some a |}.

(** Lines 48 to 52: the dict of a new employee. *)
Definition new_employee (emp_id emp_name : str) : employee :=
  {| employee_id := emp_id; employee_name := emp_name; earnings := [];
     total_hours := None; total_amount := None |}.

(** Lines 43 to 54: the header branch.  The new dict is appended to the list
    and [current_employee] refers to it. *)
Definition open_employee (st : loop_state) (line : str) : result loop_state :=
  match re_match header_re line with
  | Some employee_match =>
      do emp_id <- group employee_match 1;
      do g2 <- group employee_match 2;
      let emp_name := strip g2 in
      Ok {| st_employees := st_employees st ++ [new_employee emp_id emp_name];
            current_employee := Some (length (st_employees st)) |}
  | None => Ok st
  end.

(** Lines 63 to 76: the entry of a matched earnings row. *)
Definition earning_of_match (earning_match : groups) : result earning :=
  do g1 <- group earning_match 1;
  let earning_type := strip (strip_char 45 g1) in
  do d <- group earning_match 2;
  do g3 <- group earning_match 3;
  do r <- clean_currency (Some g3);
  do g4 <- group earning_match 4;
  do h <- clean_currency (Some g4);
  do g5 <- group earning_match 5;
  do a <- clean_currency (Some g5);
  Ok {| type := earning_type; date := d; rate := r; hours := h; amount := a |}.

(** Lines 80 to 85: the total branch, reached when the earnings branch did
    not [continue]. *)
Definition total_branch (st : loop_state) (line : str) : result loop_state :=
  match current_employee st with
  | Some i =>
      if contains (str_of "Total Earnings:") line then
        match re_search total_re line with
        | Some total_match =>
            do g1 <- group total_match 1;
            do h <- clean_currency (Some g1);
            do g2 <- group total_match 2;
            do a <- clean_currency (Some g2);
            update_employee i (set_totals h a) st
        | None => Ok st
        end
      else Ok st
  | None => Ok st
  end.

(** The body of the loop over the lines.  An employee dict has three keys
    or more, so [if current_employee] tests for [None]. *)
Definition parse_line (st : loop_state) (raw : str) : result loop_state :=
  let line := strip raw in
  do st1 <- open_employee st line;
  match current_employee st1 with
  | Some i =>
      match re_search earning_re line with
      | Some earning_match =>
          do x <- earning_of_match earning_match;
          update_employee i (append_earning x) st1
      | None => total_branch st1 line
      end
  | None => total_branch st1 line
  end.

(** The loop over the lines. *)
Fixpoint parse_lines (st : loop_state) (lines : list str) : result loop_state :=
  match lines with
  | [] => Ok st
  | raw :: rest => do st' <- parse_line st raw; parse_lines st' rest
  end.

(** [DataExtractor.parse_text_data]: [current_employee] starts as [None] at
    every call, the list of employees is the instance's. *)
Definition parse_text_data (self : DataExtractor) (text : str) : result DataExtractor :=
  let lines := split_lines text in
  do st <- parse_lines
             {| st_employees := employees (data self); current_employee := None |}
             lines;
  Ok {| pdf_path := pdf_path self; data := {| employees := st_employees st |} |}.

(** ** extract *)

(** What [pdfplumber] gives for a document: the result of
    [page.extract_text()] for every page, in page order. *)
Definition pdf := list (option str).

(** The loop over the pages: a page with no text, [None] or empty, is
    skipped. *)
Fixpoint extract_pages (self : DataExtractor) (pages : pdf) : result DataExtractor :=
  match pages with
  | [] => Ok self
  | text :: rest =>
      do self' <- match text with
                  | Some t => if is_empty t then Ok self else parse_text_data self t
                  | None => Ok self
                  end;
      extract_pages self' rest
  end.

(** [DataExtractor.extract]: the instance after the call and the returned
    [self.data]. *)
Definition extract (self : DataExtractor) (pages : pdf) : result (DataExtractor * Data) :=
  do self' <- extract_pages self pages;
  Ok (self', data self').

(** ** to_json *)

(** The JSON document [json.dumps] writes, as a tree; an object keeps the
    insertion order of the dict's keys. *)
#[warnings="-register-all"]
Inductive json :=
| JNull
| JNumber (f : float)
| JString (s : str)
| JArray (items : list json)
| JObject (members : list (str * json)).

(** A float, or [None] as [null]. *)
Definition json_of_number (v : option float) : json :=
  match v with
  | Some f => JNumber f
  | None => JNull
  end.

(** The object of an earnings dict, with its five keys. *)
Definition json_of_earning (x : earning) : json :=
  JObject [ (str_of "type", JString (type x));
            (str_of "date", JString (date x));
            (str_of "rate", json_of_number (rate x));
            (str_of "hours", json_of_number (hours x));
            (str_of "amount", json_of_number (amount x)) ].

(** The member of a key the dict may lack. *)
Definition json_of_key (key : string) (v : option (option float)) : list (str * json) :=
  match v with
  | Some x => [ (str_of key, json_of_number x) ]
  | None => []
  end.

(** The object of an employee dict, with the keys the dict has. *)
Definition json_of_employee (e : employee) : json :=
  JObject ([ (str_of "employee_id", JString (employee_id e));
             (str_of "employee_name", JString (employee_name e));
             (str_of "earnings", JArray (map json_of_earning (earnings e))) ]
           ++ json_of_key "total_hours" (total_hours e)
           ++ json_of_key "total_amount" (total_amount e)).

(** [DataExtractor.to_json]: the document [json.dumps(self.data, indent=2)]
    writes, up to the layout of the text; writing it to [output_path] is
    left out. *)
Definition to_json (self : DataExtractor) : json :=
  JObject [ (str_of "employees",
             JArray (map json_of_employee (employees (data self)))) ].

(** The member of a JSON object under a key, if the object has the key. *)
Fixpoint member (key : str) (members : list (str * json)) : option json :=
  match members with
  | [] => None
  | (k, v) :: rest => if str_eqb k key then Some v else member key rest
  end.

(** The members of a JSON object. *)
Definition members_of (j : json) : list (str * json) :=
  match j with
  | JObject members => members
  | _ => []
  end.

(** ** Several instances *)

(** The instances of one interpreter, by the order of their creation. *)
Abbreviation instances := (list DataExtractor).

(** [DataExtractor(path)]: a new instance, with the [data] dict
    [__init__] creates for it. *)
Definition construct (path : str) (objs : instances) : nat * instances :=
  (length objs, objs ++ [init path]).

(** [obj.parse_text_data(text)] on the instance [obj]. *)
Definition call_parse_text_data (obj : nat) (text : str) (objs : instances) : result instances :=
  match objs !! obj with
  | Some self => do self' <- parse_text_data self text; Ok (<[obj := self']> objs)
  | None => Raise AttributeError
  end.

(** [obj.data] *)
Definition data_of (obj : nat) (objs : instances) : option Data :=
  option_map data (objs !! obj).

(** ** Numeric cleaning, in the words of the specification *)

(** Numeric cleaning in the words of the specification: strip every
    character that is not a digit, a decimal point or a minus sign and parse
    the remainder as a decimal; an absent token, an empty remainder and a
    remainder that does not parse give absent. *)
Definition numeric_cleaning (value : option str) : option float :=
  match value with
  | None => None
  | Some v =>
      match List.filter is_kept v with
      | [] => None
      | remainder =>
          match float_of_str remainder with
          | Ok f => Some f
          | Raise _ => None
          end
      end
  end.

(** ** The loop as a fold *)

(** The loop of [parse_text_data] without the list and the reference: what
    one line is and does, and the employees a sequence of lines gives.  The
    properties below relate [parse_lines] to this reading. *)

(** The identifier and the name of a header line. *)
Definition header_of (raw : str) : option (str * str) :=
  match re_match header_re (strip raw) with
  | Some m =>
      match group m 1, group m 2 with
      | Ok emp_id, Ok g2 => Some (emp_id, strip g2)
      | _, _ => None
      end
  | None => None
  end.

(** The line, stripped, matches the header pattern. *)
Definition is_header (raw : str) : bool :=
  match re_match header_re (strip raw) with
  | Some _ => true
  | None => false
  end.

(** The entry of a line that has an earnings row. *)
Definition entry_of (raw : str) : option earning :=
  match re_search earning_re (strip raw) with
  | Some m =>
      match earning_of_match m with
      | Ok x => Some x
      | Raise _ => None
      end
  | None => None
  end.

(** The totals a line sets: the line has no earnings row (that branch ends
    with [continue]), holds the marker, and the total pattern matches. *)
Definition totals_of (raw : str) : option (option float * option float) :=
  match entry_of raw with
  | Some _ => None
  | None =>
      if contains (str_of "Total Earnings:") (strip raw) then
        match re_search total_re (strip raw) with
        | Some m =>
            match (do g1 <- group m 1;
                   do h <- clean_currency (Some g1);
                   do g2 <- group m 2;
                   do a <- clean_currency (Some g2);
                   Ok (h, a)) with
            | Ok p => Some p
            | Raise _ => None
            end
        | None => None
        end
      else None
  end.

(** What one line does to the current employee. *)
Definition absorb (e : employee) (raw : str) : employee :=
  match entry_of raw with
  | Some x => append_earning x e
  | None =>
      match totals_of raw with
      | Some (h, a) => set_totals h a e
      | None => e
      end
  end.

(** The loop as a fold over the lines with the current employee as the
    accumulator: the employees a sequence of lines adds, in order. *)
Fixpoint records_from (cur : option employee) (lines : list str) : list employee :=
  match lines with
  | [] => option_list cur
  | raw :: rest =>
      match header_of raw with
      | Some (emp_id, emp_name) =>
          option_list cur
          ++ records_from (Some (absorb (new_employee emp_id emp_name) raw)) rest
      | None => records_from (option_map (fun e => absorb e raw) cur) rest
      end
  end.

(** The two total keys of an employee. *)
Definition totals (e : employee) : option (option float) * option (option float) :=
  (total_hours e, total_amount e).

(** The employees one page gives to a new instance. *)
Definition page_employees (page : option str) : list employee :=
  match page with
  | Some text =>
      match parse_text_data (init []) text with
      | Ok self' => employees (data self')
      | Raise _ => []
      end
  | None => []
  end.

(** The state of the loop with the employees [es] closed and [cur] open. *)
Definition state_of (es : list employee) (cur : option employee) : loop_state :=
  match cur with
  | Some e => {| st_employees := es ++ [e]; current_employee := Some (length es) |}
  | None => {| st_employees := es; current_employee := None |}
  end.

(** The state [parse_text_data] starts from on a new instance. *)
Definition fresh : loop_state :=
  {| st_employees := []; current_employee := None |}.

(** The loop state is well formed: [current_employee] refers to an employee
    of the list. *)
Definition valid (st : loop_state) : Prop :=
  match current_employee st with
  | Some i => is_Some (st_employees st !! i)
  | None => True
  end.

(** No line is a header line. *)
Definition no_header (lines : list str) : Prop :=
  Forall (fun raw => is_header raw = false) lines.

(** Nothing, or lines that begin with a header line. *)
Definition header_led (lines : list str) : Prop :=
  match lines with
  | [] => True
  | raw :: _ => is_header raw = true
  end.

(** ** What the patterns match *)

(** [t] is a run of the class [p]. *)
Definition run (p : char -> bool) (t : str) : Prop :=
  Forall (fun c => p c = true) t.

(** [s] does not go on with a character of the class [p]. *)
Definition stops (p : char -> bool) (s : str) : Prop :=
  match s with
  | [] => True
  | c :: _ => p c = false
  end.

(** [n] repetitions are within the upper bound [hi]. *)
Definition within (n : nat) (hi : option nat) : Prop :=
  match hi with
  | Some h => (n <= h)%nat
  | None => True
  end.

(** A run of a class that is not empty: what [p+] matches. *)
Definition token (p : char -> bool) (t : str) : Prop :=
  run p t /\ (1 <= length t)%nat.

(** Two decimal digits, three times, with slashes between. *)
Definition date_token (d : str) : Prop :=
  exists x y z, d = x ++ str_of "/" ++ y ++ str_of "/" ++ z /\
    run is_digit x /\ length x = 2%nat /\ run is_digit y /\ length y = 2%nat /\
    run is_digit z /\ length z = 2%nat.

(** The text of an earnings row: the literal type token, a date and three
    numeric tokens, with white space between. *)
Definition earning_row (d a b c row : str) : Prop :=
  exists w1 w2 w3 w4,
    row = str_of "Hourly-" ++ w1 ++ d ++ w2 ++ a ++ w3 ++ b ++ w4 ++ c /\
    token is_space w1 /\ date_token d /\ token is_space w2 /\
    token is_numeric a /\ token is_space w3 /\ token is_numeric b /\
    token is_space w4 /\ token is_numeric c.

(** An earnings row lies in the line after [pre] and before [post]. *)
Definition row_in (line pre d a b c row post : str) : Prop :=
  line = pre ++ row ++ post /\ earning_row d a b c row.

(** What a pattern matches: [matches r pos t g g'] when [r], at position
    [pos] of the line, matches exactly the text [t] and turns the groups [g]
    into [g']. *)
Fixpoint matches (r : regex) (pos : nat) (t : str) (g g' : groups) : Prop :=
  match r with
  | Lit l => t = l /\ g' = g
  | One p => exists c, t = [c] /\ p c = true /\ g' = g
  | Rep p lo hi => run p t /\ (lo <= length t)%nat /\ within (length t) hi /\ g' = g
  | Bol => pos = O /\ t = [] /\ g' = g
  | Grp n r0 => exists g0, matches r0 pos t g g0 /\ g' = (n, t) :: g0
  | Cat r1 r2 =>
      exists t1 t2 g1, t = t1 ++ t2 /\ matches r1 pos t1 g g1 /\
                       matches r2 (pos + length t1)%nat t2 g1 g'
  end.

(** What a pattern matches first: [first_match r pos t s' g g'] when [r]
    matches [t] before [s'] and every quantifier in it has taken all it
    can, so that the backtracking matcher tries this match before any
    other. *)
Fixpoint first_match (r : regex) (pos : nat) (t s' : str) (g g' : groups) : Prop :=
  match r with
  | Lit l => t = l /\ g' = g
  | One p => exists c, t = [c] /\ p c = true /\ g' = g
  | Rep p lo hi =>
      run p t /\ (lo <= length t)%nat /\ within (length t) hi /\
      (hi = Some (length t) \/ stops p s') /\ g' = g
  | Bol => pos = O /\ t = [] /\ g' = g
  | Grp n r0 => exists g0, first_match r0 pos t s' g g0 /\ g' = (n, t) :: g0
  | Cat r1 r2 =>
      exists t1 t2 g1, t = t1 ++ t2 /\
        first_match r1 pos t1 (t2 ++ s') g g1 /\
        first_match r2 (pos + length t1)%nat t2 s' g1 g'
  end.

(** The groups of a matched earnings row. *)
Definition earning_groups (d a b c : str) : groups :=
  [(5%nat, c); (4%nat, b); (3%nat, a); (2%nat, d); (1%nat, str_of "Hourly-")].

(** ["Hourly-".strip('-').strip()] *)
Definition Hourly : str := str_of "Hourly".

(** The entry of an earnings row with the date [d] and the numeric tokens
    [a], [b], [c]. *)
Definition earning_entry (d a b c : str) : earning :=
  {| type := Hourly; date := d;
     rate := numeric_cleaning (Some a);
     hours := numeric_cleaning (Some b);
     amount := numeric_cleaning (Some c) |}.

(** The marker of a total line. *)
Definition TOTAL_MARKER : str := str_of "Total Earnings:".

(** [f] is a positive binary64 in canonical form within half a unit in the
    last place of [num / den]: a binary64 nearest to it. *)
Definition nearest_binary64 (f : float) (num den : Z) : Prop :=
  match f with
  | S754_finite false m e =>
      valid_binary prec emax f = true /\ e < 0 /\
      2 * Z.abs (Zpos m * den - num * 2 ^ (- e)) <= den
  | _ => False
  end.

(** ** Examples *)

(** The line feed. *)
Definition LF : str := [10].

(** The float written [1234.56]: [0x1.34a3d70a3d70ap+10]. *)
Definition float_1234_56 : float := S754_finite false 0x134a3d70a3d70a (-42).

(** The lines of scenario 1. *)
Definition scenario_1_lines : list str :=
  [ str_of "1001 " ++ [EN_DASH] ++ str_of " Smith, John";
    str_of "Hourly- 01/02/25 10.00 5.00 50.00";
    str_of "Total Earnings: 5.00 50.00" ].

(** The same lines as one text. *)
Definition scenario_1_text : str :=
  str_of "1001 " ++ [EN_DASH] ++ str_of " Smith, John" ++ LF
  ++ str_of "Hourly- 01/02/25 10.00 5.00 50.00" ++ LF
  ++ str_of "Total Earnings: 5.00 50.00".

(** The employee of scenario 1. *)
Definition scenario_1_employee : employee :=
  {| employee_id := str_of "1001";
     employee_name := str_of "Smith, John";
     earnings :=
       [ {| type := str_of "Hourly"; date := str_of "01/02/25";
            rate := Some (float_of_int 10);
            hours := Some (float_of_int 5);
            amount := Some (float_of_int 50) |} ];
     total_hours := Some (Some (float_of_int 5));
     total_amount := Some (Some (float_of_int 50)) |}.

(** An employee as the header line "1001 - Smith, John" opens it. *)
Definition smith : employee := new_employee (str_of "1001") (str_of "Smith, John").

(** A header line written with a hyphen. *)
Definition smith_header : str := str_of "1001 - Smith, John".

(** A state of the loop with [smith] current. *)
Definition smith_open : loop_state :=
  {| st_employees := [smith]; current_employee := Some O |}.

(** An earnings row. *)
Definition earning_line : str := str_of "Hourly- 01/02/25 10.00 5.00 50.00".

(** The entry of [earning_line]. *)
Definition earning_line_entry : earning :=
  {| type := str_of "Hourly"; date := str_of "01/02/25";
     rate := Some (float_of_int 10);
     hours := Some (float_of_int 5);
     amount := Some (float_of_int 50) |}.

(** A line with a type token other than "Hourly-". *)
Definition salary_line : str := str_of "Salary- 01/02/25 10.00 5.00 50.00".

(** A total line that is also an earnings row. *)
Definition total_and_earning_line : str :=
  str_of "Total Earnings: 3.00 4.00 Hourly- 01/02/25 10.00 5.00 50.00".

(** ** Tactics *)

(** Takes the hypotheses apart: the existentials and conjunctions that
    [matches] unfolds to on a given pattern. *)
Ltac break :=
  repeat match goal with
         | H : exists _, _ |- _ => destruct H
         | H : _ /\ _ |- _ => destruct H
         end; subst.

(** Closes a closed goal by evaluation; a [Forall] over an explicit list
    one element at a time. *)
Ltac by_evaluation :=
  lazymatch goal with
  | |- no_header _ =>
      unfold no_header; cbn [app];
      repeat (constructor; [vm_compute; reflexivity |]); constructor
  | |- Forall _ _ =>
      cbn [app];
      repeat (constructor; [vm_compute; reflexivity |]); constructor
  | |- _ => vm_compute; reflexivity
  end.

(** ** Forms of the output *)

(** The form of an employee name: letters, a comma, white space if any,
    letters. *)
Definition name_form (name : str) : Prop :=
  exists surname w given,
    name = surname ++ str_of "," ++ w ++ given /\
    token is_letter surname /\ run is_space w /\ token is_letter given.

(** A float that is zero, positive or plus infinity: not negative, not
    minus zero and not a NaN. *)
Definition unsigned (f : float) : Prop :=
  match f with
  | S754_zero false | S754_infinity false | S754_finite false _ _ => True
  | _ => False
  end.

(** A field of an earnings entry or a total: [None] or an unsigned float. *)
Definition unsigned_field (v : option float) : Prop :=
  match v with
  | Some f => unsigned f
  | None => True
  end.

(** The form of an earnings entry. *)
Definition entry_form (x : earning) : Prop :=
  type x = str_of "Hourly" /\ date_token (date x) /\
  unsigned_field (rate x) /\ unsigned_field (hours x) /\ unsigned_field (amount x).

(** The two total keys are there together, with unsigned values. *)
Definition totals_form (e : employee) : Prop :=
  match total_hours e, total_amount e with
  | None, None => True
  | Some h, Some a => unsigned_field h /\ unsigned_field a
  | _, _ => False
  end.

(** The form of an employee of the output. *)
Definition employee_form (e : employee) : Prop :=
  token is_digit (employee_id e) /\ name_form (employee_name e) /\
  Forall entry_form (earnings e) /\ totals_form e.

(** The number of decimal points of a token. *)
Definition points (t : str) : nat := length (List.filter (fun c => c =? 46) t).

(** The text of a header line: the identifier, a dash with white space
    around it if any, and the name, followed by no letter. *)
Definition header_line (emp_id name line : str) : Prop :=
  exists w1 dash w2 rest,
    line = emp_id ++ w1 ++ [dash] ++ w2 ++ name ++ rest /\
    token is_digit emp_id /\ run is_space w1 /\ is_dash dash = true /\
    run is_space w2 /\ name_form name /\ stops is_letter rest.

(** ** Pages and lines *)

(** ["\n".join([first] + pages)]: pages put together as one text. *)
Definition join_pages (first : str) (pages : list str) : str :=
  fold_left (fun text page => text ++ LF ++ page) pages first.

(** The employee [e'] is [e] with further entries, if any: same identifier,
    same name, the entries of [e] first. *)
Definition grows (e e' : employee) : Prop :=
  employee_id e' = employee_id e /\ employee_name e' = employee_name e /\
  exists more, earnings e' = earnings e ++ more.

(** The carriage return. *)
Definition CR : char := 13.

(** ** The script *)

(** [s * n] for a string of one character. *)
Definition times (c : char) (n : nat) : str := repeat c n.

(** [format(s, '<w')]: [s], with spaces after it up to the width [w]. *)
Definition ljust (width : nat) (s : str) : str :=
  s ++ times 32 (width - length s).

(** The digits of a decimal numeral, first digit first. *)
Fixpoint str_of_uint (d : Decimal.uint) : str :=
  match d with
  | Decimal.Nil => []
  | Decimal.D0 d => 48 :: str_of_uint d
  | Decimal.D1 d => 49 :: str_of_uint d
  | Decimal.D2 d => 50 :: str_of_uint d
  | Decimal.D3 d => 51 :: str_of_uint d
  | Decimal.D4 d => 52 :: str_of_uint d
  | Decimal.D5 d => 53 :: str_of_uint d
  | Decimal.D6 d => 54 :: str_of_uint d
  | Decimal.D7 d => 55 :: str_of_uint d
  | Decimal.D8 d => 56 :: str_of_uint d
  | Decimal.D9 d => 57 :: str_of_uint d
  end.

(** [str(n)] for an int that is not negative. *)
Definition str_of_int (n : Z) : str := str_of_uint (N.to_uint (Z.to_N n)).

(** [n / d] rounded to the nearest integer, a tie to the even one. *)
Definition round_half_even (n d : Z) : Z :=
  let q := n / d in
  let r := n mod d in
  if 2 * r <? d then q
  else if d <? 2 * r then q + 1
  else if Z.even q then q else q + 1.

(** The hundredths of [m * 2 ^ e], rounded so. *)
Definition hundredths (m : positive) (e : Z) : Z :=
  if 0 <=? e then Z.pos m * 2 ^ e * 100
  else round_half_even (Z.pos m * 100) (2 ^ (- e)).

(** The sign [format] writes. *)
Definition sign (s : bool) : str := if s then str_of "-" else [].

(** [format(f, '.2f')]: the float with two decimals, correctly rounded. *)
Definition fixed2 (f : float) : str :=
  match f with
  | S754_nan => str_of "nan"
  | S754_infinity s => sign s ++ str_of "inf"
  | S754_zero s => sign s ++ str_of "0.00"
  | S754_finite s m e =>
      let q := hundredths m e in
      sign s ++ str_of_int (q / 100) ++ str_of "."
      ++ [48 + (q mod 100) / 10; 48 + (q mod 100) mod 10]
  end.

(** What ends the script early: the exceptions the table can raise, and an
    exception that comes out of [extract]. *)
Inductive error :=
| TypeError
| KeyError
| Uncaught (e : exn).

(** What the script leaves behind: the text written to the standard output
    and the documents written to files, in the order of the writes.  The
    standard output is taken to encode every character, and the file to be
    writable. *)
Record world := { stdout : str; written : list (str * json) }.

(** [print(s)] *)
Definition print (s : str) (w : world) : world :=
  {| stdout := stdout w ++ s ++ LF; written := written w |}.

(** [with open(path, 'w') as f: f.write(doc)] *)
Definition write_file (path : str) (doc : json) (w : world) : world :=
  {| stdout := stdout w; written := written w ++ [(path, doc)] |}.

(** [format(v, '<w.2f')]: the float with two decimals, left-aligned in the
    width.  [None] has no such format: a [TypeError], here [None]. *)
Definition format_number (width : nat) (v : option float) : option str :=
  option_map (fun f => ljust width (fixed2 f)) v.

(** Lines 114 to 118 and 122 to 125: the row of the table for the entry [x],
    with [lead] in the first column.  The text is put together before
    [print] is called. *)
Definition row_text (lead : str) (x : earning) : option str :=
  match format_number 10 (rate x), format_number 10 (hours x),
        format_number 15 (amount x) with
  | Some r, Some h, Some a =>
      Some (ljust 35 lead ++ str_of " " ++ ljust 15 (type x) ++ str_of " "
            ++ ljust 15 (date x) ++ str_of " "
            ++ r ++ str_of " " ++ h ++ str_of " " ++ a)
  | _, _, _ => None
  end.

(** Lines 121 to 125: the rows of the entries after the first. *)
Fixpoint print_rows (rows : list earning) (w : world) : world * option error :=
  match rows with
  | [] => (w, None)
  | x :: rest =>
      match row_text [] x with
      | Some t => print_rows rest (print t w)
      | None => (w, Some TypeError)
      end
  end.

(** Lines 109 to 125: the rows of an employee, the first with the
    identifier and the name; nothing for an employee with no entry. *)
Definition print_earnings (e : employee) (w : world) : world * option error :=
  let emp_info := employee_id e ++ [32; 8211; 32] ++ employee_name e in
  match earnings e with
  | [] => (w, None)
  | first_earning :: rest =>
      match row_text emp_info first_earning with
      | Some t => print_rows rest (print t w)
      | None => (w, Some TypeError)
      end
  end.

(** [if employee.get('total_amount')]: the key is there, its value is a
    float and the float is not zero. *)
Definition truthy (v : option (option float)) : bool :=
  match v with
  | Some (Some (S754_zero _)) => false
  | Some (Some _) => true
  | _ => false
  end.

(** Lines 129 to 131: the row of the totals.  [employee['total_hours']] is
    read first; a key that is not there is a [KeyError]. *)
Definition totals_text (e : employee) : str + error :=
  match total_hours e with
  | None => inr KeyError
  | Some h =>
      match format_number 10 h with
      | None => inr TypeError
      | Some hs =>
          match total_amount e with
          | None => inr KeyError
          | Some a =>
              match format_number 15 a with
              | None => inr TypeError
              | Some ts =>
                  inl (ljust 35 [] ++ str_of " "
                       ++ ljust 31 (str_of "Total Earnings:") ++ str_of " "
                       ++ ljust 10 [] ++ str_of " " ++ hs ++ str_of " " ++ ts)
              end
          end
      end
  end.

(** Lines 128 to 132: the row of the totals and the line under it. *)
Definition print_totals (e : employee) (w : world) : world * option error :=
  if truthy (total_amount e) then
    match totals_text e with
    | inl t => (print (times 45 120) (print t w), None)
    | inr err => (w, Some err)
    end
  else (w, None).

(** Lines 109 to 132: the body of the loop over the employees. *)
Definition print_employee (e : employee) (w : world) : world * option error :=
  match print_earnings e w with
  | (w1, None) => print_totals e (print LF w1)
  | failed => failed
  end.

(** Lines 108 to 132: the loop over the employees. *)
Fixpoint print_employees (es : list employee) (w : world) : world * option error :=
  match es with
  | [] => (w, None)
  | e :: rest =>
      match print_employee e w with
      | (w1, None) => print_employees rest w1
      | failed => failed
      end
  end.

(** Lines 101 to 105: the head of the table. *)
Definition print_head (data : Data) (w : world) : world :=
  let w := print (LF ++ str_of "Total Employees Found: "
                  ++ str_of_int (Z.of_nat (length (employees data)))) w in
  let w := print (LF ++ times 61 120) w in
  let w := print (ljust 35 (str_of "Employee ID & Name") ++ str_of " "
                  ++ ljust 60 (str_of "Earnings")) w in
  let w := print (ljust 35 [] ++ str_of " " ++ ljust 15 (str_of "Type")
                  ++ ljust 15 (str_of "Change Date") ++ str_of " "
                  ++ ljust 10 (str_of "Rate") ++ str_of " "
                  ++ ljust 10 (str_of "Hours") ++ str_of " "
                  ++ ljust 15 (str_of "Amount")) w in
  print (times 61 120) w.

(** [DataExtractor.to_json] with its [output_path]: the document is
    returned, and written to the file when a path is given that is not the
    empty string. *)
Definition to_json_at (self : DataExtractor) (output_path : option str) (w : world)
    : world * json :=
  let json_data := to_json self in
  match output_path with
  | Some path =>
      if is_empty path then (w, json_data)
      else (write_file path json_data w, json_data)
  | None => (w, json_data)
  end.

(** Lines 97 to 137: the script, on the pages of [invoice.pdf]. *)
Definition script (pages : pdf) (w : world) : world * option error :=
  match extract (init (str_of "invoice.pdf")) pages with
  | Raise e => (w, Some (Uncaught e))
  | Ok (extractor, data) =>
      match print_employees (employees data) (print_head data w) with
      | (w1, None) =>
          let w2 := print (times 61 120) w1 in
          let w3 := fst (to_json_at extractor (Some (str_of "output.json")) w2) in
          (print (LF ++ [10003] ++ str_of " JSON exported to: output.json") w3, None)
      | failed => failed
      end
  end.

(** The three numbers of an entry are floats. *)
Definition has_numbers (x : earning) : bool :=
  match rate x, hours x, amount x with
  | Some _, Some _, Some _ => true
  | _, _, _ => false
  end.

(** The table can show the employee: the numbers of every entry are floats,
    and so is the total of the hours when the total amount is shown. *)
Definition printable (e : employee) : bool :=
  forallb has_numbers (earnings e)
  && (negb (truthy (total_amount e))
      || match total_hours e with Some (Some _) => true | _ => false end).

(** The script has gone on from [w] to [w']: more text on the standard
    output, no file written. *)
Definition printed (w w' : world) : Prop :=
  written w' = written w /\ exists out, stdout w' = stdout w ++ out.

(** * Properties *)

(** ** Character classes *)

Lemma is_space_cases (c : char) :
  is_space c = true ->
  In c [9; 10; 11; 12; 13; 28; 29; 30; 31; 32; 133; 160; 5760; 8192; 8193;
        8194; 8195; 8196; 8197; 8198; 8199; 8200; 8201; 8202; 8232; 8233;
        8239; 8287; 12288].
Proof.
  unfold is_space. intros H.
  repeat (apply orb_prop in H; destruct H as [H | H]);
    try (apply andb_prop in H; destruct H as [H1 H2];
         apply Z.leb_le in H1; apply Z.leb_le in H2);
    try apply Z.eqb_eq in H; simpl; lia.
Qed.

Lemma space_not_kept (c : char) : is_space c = true -> is_kept c = false.
Proof.
  intros H. apply is_space_cases in H. simpl in H.
  repeat (destruct H as [<- | H]; [reflexivity |]). destruct H.
Qed.

Lemma space_not_numeric (c : char) : is_space c = true -> is_numeric c = false.
Proof.
  intros H. apply space_not_kept in H. unfold is_kept in H. unfold is_numeric.
  apply orb_false_elim in H. tauto.
Qed.

Lemma numeric_not_space (c : char) : is_numeric c = true -> is_space c = false.
Proof.
  intros H. destruct (is_space c) eqn:E; [| reflexivity].
  apply space_not_numeric in E. congruence.
Qed.

Lemma digit_numeric (c : char) : is_digit c = true -> is_numeric c = true.
Proof. unfold is_numeric. intros ->. reflexivity. Qed.

Lemma digit_not_space (c : char) : is_digit c = true -> is_space c = false.
Proof. intros H. apply numeric_not_space, digit_numeric, H. Qed.

(** ** Strings *)

Lemma starts_with_app (l s : str) : starts_with l (l ++ s) = true.
Proof.
  induction l as [| x l IH]; simpl; [reflexivity |].
  rewrite Z.eqb_refl. exact IH.
Qed.

Lemma starts_with_inv (l s : str) :
  starts_with l s = true -> s = l ++ drop (length l) s.
Proof.
  revert s. induction l as [| x l IH]; intros s H; simpl in *.
  - reflexivity.
  - destruct s as [| c s]; [discriminate |].
    apply andb_prop in H. destruct H as [H1 H2].
    apply Z.eqb_eq in H1. subst c. simpl. f_equal. apply IH, H2.
Qed.

Lemma lstrip_nil (s : str) : lstrip s = [] -> run is_space s.
Proof.
  induction s as [| c s IH]; simpl; intros H; [constructor |].
  destruct (is_space c) eqn:Hc; [| discriminate].
  constructor; [exact Hc | exact (IH H)].
Qed.

Lemma lstrip_stops (s : str) : stops is_space (lstrip s).
Proof.
  induction s as [| c s IH]; simpl; [exact I |].
  destruct (is_space c) eqn:Hc; [exact IH | exact Hc].
Qed.

Lemma lstrip_run (s : str) : run is_space (lstrip s) -> run is_space s.
Proof.
  induction s as [| c s IH]; simpl; intros H; [constructor |].
  destruct (is_space c) eqn:Hc.
  - constructor; [exact Hc | exact (IH H)].
  - exact H.
Qed.

Lemma strip_nil (s : str) : strip s = [] -> run is_space s.
Proof.
  unfold strip, rstrip. intros H.
  apply lstrip_run.
  assert (H' : lstrip (rev (lstrip s)) = []).
  { rewrite <- (rev_involutive (lstrip (rev (lstrip s)))), H. reflexivity. }
  apply lstrip_nil in H'. unfold run in *.
  rewrite <- (rev_involutive (lstrip s)). apply Forall_rev, H'.
Qed.

Lemma filter_kept_spaces (s : str) : run is_space s -> List.filter is_kept s = [].
Proof.
  induction 1 as [| c s Hc Hs IH]; simpl; [reflexivity |].
  rewrite (space_not_kept c Hc). exact IH.
Qed.

Lemma span (p : char -> bool) (s : str) :
  exists t s', s = t ++ s' /\ run p t /\ stops p s'.
Proof.
  induction s as [| c s (t & s' & -> & Ht & Hs)].
  - exists [], []. repeat split. constructor.
  - destruct (p c) eqn:Hc.
    + exists (c :: t), s'. repeat split; [constructor; assumption | exact Hs].
    + exists [], (c :: t ++ s'). repeat split; [constructor | exact Hc].
Qed.

Lemma token_extend (p : char -> bool) (c t : str) :
  token p c -> run p t -> token p (c ++ t).
Proof.
  intros [Hr Hl] Ht. split.
  - apply Forall_app. split; assumption.
  - rewrite length_app. lia.
Qed.

Lemma token_stops (p q : char -> bool) (t s : str) :
  (forall c, q c = true -> p c = false) ->
  token q t -> stops p (t ++ s).
Proof.
  intros Hpq [Hrun Hlen]. destruct t as [| c t]; [simpl in Hlen; lia |].
  simpl. apply Hpq. inversion Hrun; assumption.
Qed.

Lemma date_stops (d s : str) : date_token d -> stops is_space (d ++ s).
Proof.
  intros (x & y & z & -> & Hx & Lx & _).
  destruct x as [| c x]; [discriminate |].
  simpl. apply digit_not_space. inversion Hx; assumption.
Qed.

(** ** The matcher *)

Section Matcher.

Context {A : Type}.

(** Whatever a quantifier matched is a run of its class within its bounds. *)
Lemma rep_sound (p : char -> bool) (lo : nat) (hi : option nat)
    (pos : nat) (s : str) (k : nat -> str -> option A) (x : A) :
  rep p lo hi pos s k = Some x ->
  exists t s', s = t ++ s' /\ run p t /\ (lo <= length t)%nat /\
               within (length t) hi /\ k (pos + length t)%nat s' = Some x.
Proof.
  revert lo hi pos. induction s as [| c s IH]; intros lo hi pos H.
  - simpl in H. destruct lo; [| discriminate].
    exists [], []. rewrite Nat.add_0_r. repeat split; auto.
    + constructor.
    + destruct hi; simpl; lia.
  - simpl in H.
    assert (Hstop : match lo with O => k pos (c :: s) | S _ => None end = Some x ->
                    exists t s', c :: s = t ++ s' /\ run p t /\ (lo <= length t)%nat /\
                      within (length t) hi /\ k (pos + length t)%nat s' = Some x).
    { intros H0. destruct lo; [| discriminate].
      exists [], (c :: s). rewrite Nat.add_0_r. repeat split; auto.
      - constructor.
      - destruct hi; simpl; lia. }
    destruct (p c) eqn:Hp; simpl in H; [| auto].
    destruct (exhausted hi) eqn:Hx; simpl in H; [auto |].
    destruct (rep p (Nat.pred lo) (option_map Nat.pred hi) (S pos) s k) eqn:Hr; [| auto].
    injection H as ->.
    apply IH in Hr. destruct Hr as (t & s' & -> & Ht & Hlo & Hhi & Hk).
    exists (c :: t), s'. simpl. repeat split.
    + constructor; assumption.
    + lia.
    + destruct hi as [[| h] |]; simpl in *; try discriminate; lia.
    + rewrite <- Hk. f_equal. lia.
Qed.

(** A greedy quantifier takes the longest run its bounds allow when what
    follows the quantifier then succeeds. *)
Lemma rep_greedy (p : char -> bool) (t s' : str)
    (k : nat -> str -> option A) (x : A) :
  run p t ->
  forall lo hi pos,
  (lo <= length t)%nat -> within (length t) hi ->
  hi = Some (length t) \/ stops p s' ->
  k (pos + length t)%nat s' = Some x ->
  rep p lo hi pos (t ++ s') k = Some x.
Proof.
  induction 1 as [| c t Hc Ht IH]; intros lo hi pos Hlo Hhi Hstop Hk.
  - simpl in *. rewrite Nat.add_0_r in Hk.
    assert (lo = O) by lia. subst lo.
    destruct s' as [| c s']; simpl; [exact Hk |].
    destruct Hstop as [-> | Hs]; simpl.
    + rewrite andb_false_r. exact Hk.
    + simpl in Hs. rewrite Hs. exact Hk.
  - simpl. rewrite Hc. simpl.
    assert (Hx : exhausted hi = false).
    { destruct hi as [[| h] |]; simpl in *; try reflexivity; lia. }
    rewrite Hx. simpl.
    rewrite (IH (Nat.pred lo) (option_map Nat.pred hi) (S pos)); auto.
    + simpl in Hlo. lia.
    + destruct hi as [h |]; simpl in *; [lia | exact I].
    + destruct Hstop as [-> | Hs]; [left; reflexivity | right; exact Hs].
    + rewrite <- Hk. f_equal. simpl. lia.
Qed.

(** The matcher only finds what the pattern matches. *)
Lemma exec_sound (r : regex) :
  forall (pos : nat) (s : str) (g : groups)
         (k : nat -> str -> groups -> option A) (x : A),
  exec r pos s g k = Some x ->
  exists t s' g', s = t ++ s' /\ matches r pos t g g' /\
                  k (pos + length t)%nat s' g' = Some x.
Proof.
  induction r as [l | p | p lo hi | | n r0 IH | r1 IH1 r2 IH2];
    intros pos s g k x H; simpl in H.
  - destruct (starts_with l s) eqn:Hl; [| discriminate].
    exists l, (drop (length l) s), g. simpl.
    split; [apply starts_with_inv, Hl |]. split; [split; reflexivity | exact H].
  - destruct s as [| c s]; [discriminate |].
    destruct (p c) eqn:Hp; [| discriminate].
    exists [c], s, g. simpl. split; [reflexivity |]. split; [eauto |].
    rewrite <- H. f_equal. lia.
  - apply rep_sound in H. destruct H as (t & s' & -> & Ht & Hlo & Hhi & Hk).
    exists t, s', g. simpl. repeat split; assumption.
  - destruct (Nat.eqb pos 0) eqn:Hp; [| discriminate].
    apply Nat.eqb_eq in Hp. exists [], s, g. simpl.
    rewrite Nat.add_0_r. repeat split; assumption.
  - apply IH in H. destruct H as (t & s' & g' & -> & Hm & Hk).
    exists t, s', ((n, t) :: g'). split; [reflexivity |]. split.
    + simpl. eauto.
    + rewrite <- Hk. do 3 f_equal.
      replace (pos + length t - pos)%nat with (length t) by lia.
      symmetry. apply take_app_length.
  - apply IH1 in H. destruct H as (t1 & s1 & g1 & -> & Hm1 & H).
    apply IH2 in H. destruct H as (t2 & s2 & g2 & -> & Hm2 & Hk).
    exists (t1 ++ t2), s2, g2. split; [apply app_assoc |]. split.
    + simpl. eauto 6.
    + rewrite <- Hk. f_equal. rewrite length_app. lia.
Qed.

Lemma exec_first (r : regex) :
  forall (pos : nat) (t s' : str) (g g' : groups)
         (k : nat -> str -> groups -> option A) (x : A),
  first_match r pos t s' g g' ->
  k (pos + length t)%nat s' g' = Some x ->
  exec r pos (t ++ s') g k = Some x.
Proof.
  induction r as [l | p | p lo hi | | n r0 IH | r1 IH1 r2 IH2];
    intros pos t s' g g' k x Hm Hk; simpl in Hm; simpl.
  - destruct Hm as [-> ->].
    rewrite starts_with_app, drop_app_length. exact Hk.
  - destruct Hm as (c & -> & Hc & ->). simpl. rewrite Hc.
    rewrite <- Hk. f_equal. simpl. lia.
  - destruct Hm as (Hrun & Hlo & Hhi & Hstop & ->).
    apply rep_greedy; assumption.
  - destruct Hm as (-> & -> & ->). simpl. rewrite Nat.add_0_r in Hk. exact Hk.
  - destruct Hm as (g0 & Hm & ->).
    apply (IH pos t s' g g0); [exact Hm |].
    replace (pos + length t - pos)%nat with (length t) by lia.
    rewrite take_app_length. exact Hk.
  - destruct Hm as (t1 & t2 & g1 & -> & Hm1 & Hm2).
    rewrite <- app_assoc.
    apply (IH1 pos t1 (t2 ++ s') g g1); [exact Hm1 |].
    apply (IH2 _ t2 s' g1 g'); [exact Hm2 |].
    rewrite <- Hk. f_equal. rewrite length_app. lia.
Qed.

End Matcher.

Lemma match_at_sound (r : regex) (pos : nat) (s : str) (g : groups) :
  match_at r pos s = Some g ->
  exists t s', s = t ++ s' /\ matches r pos t [] g.
Proof.
  unfold match_at. intros H. apply exec_sound in H.
  destruct H as (t & s' & g' & -> & Hm & Hk). injection Hk as ->. eauto.
Qed.

(** [re.search] returns the match at the leftmost position that has one. *)
Lemma search_from_sound (r : regex) (s : str) :
  forall (pos : nat) (g : groups),
  search_from r pos s = Some g ->
  exists pre suf, s = pre ++ suf /\
    match_at r (pos + length pre)%nat suf = Some g /\
    forall pre' suf', s = pre' ++ suf' -> (length pre' < length pre)%nat ->
                      match_at r (pos + length pre')%nat suf' = None.
Proof.
  induction s as [| c s IH]; intros pos g H; simpl in H.
  - destruct (match_at r pos []) eqn:Hm; [| discriminate]. injection H as ->.
    exists [], []. simpl. rewrite Nat.add_0_r. split; [reflexivity |].
    split; [exact Hm |]. intros; lia.
  - destruct (match_at r pos (c :: s)) eqn:Hm.
    + injection H as ->. exists [], (c :: s). simpl. rewrite Nat.add_0_r.
      split; [reflexivity |]. split; [exact Hm |]. intros; lia.
    + apply IH in H. destruct H as (pre & suf & -> & Hg & Hleft).
      exists (c :: pre), suf. split; [reflexivity |]. split.
      * rewrite <- Hg. f_equal. simpl. lia.
      * intros pre' suf' Heq Hlen. destruct pre' as [| c' pre'].
        -- simpl in *. subst suf'. rewrite Nat.add_0_r. exact Hm.
        -- simpl in *. injection Heq as <- Heq.
           replace (pos + S (length pre'))%nat with (S pos + length pre')%nat by lia.
           apply Hleft; [exact Heq | lia].
Qed.

Lemma search_from_none (r : regex) (s : str) :
  forall (pos : nat),
  search_from r pos s = None ->
  forall pre suf, s = pre ++ suf -> match_at r (pos + length pre)%nat suf = None.
Proof.
  induction s as [| c s IH]; intros pos H pre suf Heq; simpl in H.
  - destruct (match_at r pos []) eqn:Hm; [discriminate |].
    symmetry in Heq. apply app_eq_nil in Heq. destruct Heq as [-> ->].
    simpl. rewrite Nat.add_0_r. exact Hm.
  - destruct (match_at r pos (c :: s)) eqn:Hm; [discriminate |].
    destruct pre as [| c' pre]; simpl in Heq.
    + subst suf. simpl. rewrite Nat.add_0_r. exact Hm.
    + injection Heq as <- Heq. simpl.
      replace (pos + S (length pre))%nat with (S pos + length pre)%nat by lia.
      apply IH; assumption.
Qed.

Lemma search_from_leftmost (r : regex) (pre suf : str) (pos : nat) (g : groups) :
  match_at r (pos + length pre)%nat suf = Some g ->
  (forall pre' suf', pre ++ suf = pre' ++ suf' -> (length pre' < length pre)%nat ->
                     match_at r (pos + length pre')%nat suf' = None) ->
  search_from r pos (pre ++ suf) = Some g.
Proof.
  intros Hg Hleft.
  destruct (search_from r pos (pre ++ suf)) as [g' |] eqn:Hs.
  - apply search_from_sound in Hs.
    destruct Hs as (pre1 & suf1 & Heq & Hg1 & Hleft1).
    destruct (Nat.lt_trichotomy (length pre1) (length pre)) as [Hlt | [Heql | Hgt]].
    + rewrite (Hleft _ _ Heq Hlt) in Hg1. discriminate.
    + assert (pre = pre1 /\ suf = suf1) as [<- <-].
      { apply app_inj_1; [symmetry; exact Heql | exact Heq]. }
      congruence.
    + rewrite (Hleft1 pre suf eq_refl Hgt) in Hg. discriminate.
  - rewrite (search_from_none _ _ _ Hs pre suf eq_refl) in Hg. discriminate.
Qed.

Lemma search_shape (r : regex) (line : str) (g : groups) :
  re_search r line = Some g ->
  exists pre suf, line = pre ++ suf /\ match_at r (length pre) suf = Some g.
Proof.
  intros H. apply search_from_sound in H.
  destruct H as (pre & suf & -> & Hg & _). eauto.
Qed.

(** ** The three patterns *)

Lemma header_shape (line : str) (g : groups) :
  re_match header_re line = Some g ->
  exists emp_id name, g = [(2%nat, name); (1%nat, emp_id)] /\ token is_digit emp_id.
Proof.
  intros H. apply match_at_sound in H. destruct H as (t & s' & -> & Hm).
  unfold header_re, plus, star in Hm. simpl in Hm. break.
  eexists _, _. split; [reflexivity |]. split; assumption.
Qed.

Lemma earning_shape (pos : nat) (s : str) (g : groups) :
  match_at earning_re pos s = Some g ->
  exists d a b c row post,
    s = row ++ post /\ earning_row d a b c row /\
    g = [(5%nat, c); (4%nat, b); (3%nat, a); (2%nat, d);
         (1%nat, str_of "Hourly-")].
Proof.
  intros H. apply match_at_sound in H. destruct H as (t & s' & -> & Hm).
  unfold earning_re, plus, exactly in Hm. simpl in Hm. break.
  match goal with
  | |- context [(2%nat, ?d)] => exists d
  end.
  eexists _, _, _, _, s'. split; [reflexivity |]. split; [| reflexivity].
  eexists _, _, _, _. split; [reflexivity |].
  unfold token, date_token, within in *.
  repeat split; try assumption.
  eexists _, _, _. split; [reflexivity |]. repeat split; try assumption; lia.
Qed.

Lemma total_shape (pos : nat) (s : str) (g : groups) :
  match_at total_re pos s = Some g ->
  exists a b, g = [(2%nat, b); (1%nat, a)] /\
              token is_numeric a /\ token is_numeric b.
Proof.
  intros H. apply match_at_sound in H. destruct H as (t & s' & -> & Hm).
  unfold total_re, plus in Hm. simpl in Hm. break.
  eexists _, _. split; [reflexivity |]. unfold token. auto.
Qed.

(** A row followed by no numeric character is matched, with its tokens as
    the groups. *)
Lemma earning_complete (pos : nat) (d a b c row post : str) :
  earning_row d a b c row -> stops is_numeric post ->
  match_at earning_re pos (row ++ post) = Some (earning_groups d a b c).
Proof.
  intros (w1 & w2 & w3 & w4 & -> & Hw1 & Hd & Hw2 & Ha & Hw3 & Hb & Hw4 & Hc) Hpost.
  unfold match_at.
  apply (exec_first earning_re pos _ post [] (earning_groups d a b c)); [| reflexivity].
  pose proof Hd as (x & y & z & Ed & Hx & Lx & Hy & Ly & Hz & Lz).
  unfold earning_re, plus, exactly. simpl.
  exists (str_of "Hourly-"), (w1 ++ d ++ w2 ++ a ++ w3 ++ b ++ w4 ++ c); eexists.
  split; [reflexivity |]. split; [eexists; split; [split; reflexivity | reflexivity] |].
  exists w1, (d ++ w2 ++ a ++ w3 ++ b ++ w4 ++ c); eexists.
  split; [reflexivity |]. split.
  { destruct Hw1 as [Hr Hl]. repeat split; try assumption.
    right. rewrite <- app_assoc. apply date_stops, Hd. }
  exists d, (w2 ++ a ++ w3 ++ b ++ w4 ++ c); eexists.
  split; [reflexivity |]. split.
  { eexists. split; [| reflexivity].
    exists x, (str_of "/" ++ y ++ str_of "/" ++ z); eexists. split; [exact Ed |]. split.
    { repeat split; try assumption; try lia. left. rewrite Lx. reflexivity. }
    exists (str_of "/"), (y ++ str_of "/" ++ z); eexists.
    split; [reflexivity |]. split; [split; reflexivity |].
    exists y, (str_of "/" ++ z); eexists. split; [reflexivity |]. split.
    { repeat split; try assumption; try lia. left. rewrite Ly. reflexivity. }
    exists (str_of "/"), z; eexists.
    split; [reflexivity |]. split; [split; reflexivity |].
    repeat split; try assumption; try lia. left. rewrite Lz. reflexivity. }
  exists w2, (a ++ w3 ++ b ++ w4 ++ c); eexists.
  split; [reflexivity |]. split.
  { destruct Hw2 as [Hr Hl]. repeat split; try assumption.
    right. rewrite <- app_assoc.
    apply (token_stops is_space is_numeric); [exact numeric_not_space | exact Ha]. }
  exists a, (w3 ++ b ++ w4 ++ c); eexists.
  split; [reflexivity |]. split.
  { eexists. split; [| reflexivity]. destruct Ha as [Hr Hl].
    repeat split; try assumption.
    right. rewrite <- app_assoc.
    apply (token_stops is_numeric is_space); [exact space_not_numeric | exact Hw3]. }
  exists w3, (b ++ w4 ++ c); eexists.
  split; [reflexivity |]. split.
  { destruct Hw3 as [Hr Hl]. repeat split; try assumption.
    right. rewrite <- app_assoc.
    apply (token_stops is_space is_numeric); [exact numeric_not_space | exact Hb]. }
  exists b, (w4 ++ c); eexists.
  split; [reflexivity |]. split.
  { eexists. split; [| reflexivity]. destruct Hb as [Hr Hl].
    repeat split; try assumption.
    right. rewrite <- app_assoc.
    apply (token_stops is_numeric is_space); [exact space_not_numeric | exact Hw4]. }
  exists w4, c; eexists.
  split; [reflexivity |]. split.
  { destruct Hw4 as [Hr Hl]. repeat split; try assumption.
    right. apply (token_stops is_space is_numeric); [exact numeric_not_space | exact Hc]. }
  eexists. split; [| reflexivity]. destruct Hc as [Hr Hl].
  repeat split; try assumption. right. exact Hpost.
Qed.

Lemma earning_row_extend (d a b c row t : str) :
  earning_row d a b c row -> run is_numeric t ->
  earning_row d a b (c ++ t) (row ++ t).
Proof.
  intros (w1 & w2 & w3 & w4 & -> & Hw1 & Hd & Hw2 & Ha & Hw3 & Hb & Hw4 & Hc) Ht.
  exists w1, w2, w3, w4. split.
  - rewrite <- !app_assoc. reflexivity.
  - repeat (split; [assumption |]). apply token_extend; assumption.
Qed.

(** Where a row lies, the pattern matches. *)
Lemma earning_row_matches (pos : nat) (d a b c row post : str) :
  earning_row d a b c row ->
  exists g, match_at earning_re pos (row ++ post) = Some g.
Proof.
  intros Hrow. destruct (span is_numeric post) as (t & post' & -> & Ht & Hs).
  rewrite app_assoc.
  rewrite (earning_complete pos d a b (c ++ t) (row ++ t) post'
             (earning_row_extend _ _ _ _ _ _ Hrow Ht) Hs).
  eauto.
Qed.

(** What the pattern matches is a row with its last token as long as it
    can be. *)
Lemma earning_match_exact (pos : nat) (s : str) (g : groups) :
  match_at earning_re pos s = Some g ->
  exists d a b c row post,
    s = row ++ post /\ earning_row d a b c row /\ stops is_numeric post /\
    g = earning_groups d a b c.
Proof.
  intros H. pose proof H as H0. apply earning_shape in H0.
  destruct H0 as (d & a & b & c & row & post & -> & Hrow & ->).
  destruct (span is_numeric post) as (t & post' & -> & Ht & Hs).
  pose proof (earning_complete pos d a b (c ++ t) (row ++ t) post'
                (earning_row_extend _ _ _ _ _ _ Hrow Ht) Hs) as H1.
  rewrite <- app_assoc in H1. rewrite H in H1.
  unfold earning_groups in H1. injection H1 as Hc.
  assert (t = []) as ->.
  { apply (f_equal length) in Hc. rewrite length_app in Hc.
    destruct t; [reflexivity | simpl in Hc; lia]. }
  exists d, a, b, c, row, post'. repeat split; assumption.
Qed.

(** ** clean_currency *)

(** What [clean_currency] hands to [float] is over the alphabet
    [float_of_str] is defined for. *)
Lemma cleaned_alphabet (v : str) : run is_kept (List.filter is_kept v).
Proof.
  induction v as [| c v IH]; simpl; [constructor |].
  destruct (is_kept c) eqn:Hc; [constructor; assumption | exact IH].
Qed.

Lemma float_of_str_raises (s : str) (e : exn) :
  float_of_str s = Raise e -> e = ValueError.
Proof.
  unfold float_of_str. intros H.
  repeat match type of H with
         | context [match ?x with _ => _ end] => destruct x
         | context [if ?x then _ else _] => destruct x
         end; congruence.
Qed.

Lemma clean_currency_refines (value : option str) :
  clean_currency value = Ok (numeric_cleaning value).
Proof.
  destruct value as [v |]; simpl; [| reflexivity].
  destruct (is_empty v || is_empty (strip v)) eqn:He.
  - assert (Hs : run is_space v).
    { apply orb_prop in He. destruct He as [He | He].
      - destruct v; [constructor | discriminate].
      - apply strip_nil. destruct (strip v); [reflexivity | discriminate]. }
    rewrite (filter_kept_spaces v Hs). reflexivity.
  - destruct (List.filter is_kept v) as [| c cleaned] eqn:Hf; simpl; [reflexivity |].
    destruct (float_of_str (c :: cleaned)) as [f | e] eqn:Hfl; simpl; [reflexivity |].
    rewrite (float_of_str_raises _ _ Hfl). reflexivity.
Qed.

(** ** One line *)

Arguments clean_currency : simpl never.
Arguments numeric_cleaning : simpl never.
Arguments strip : simpl never.
Arguments re_search : simpl never.
Arguments re_match : simpl never.
Arguments state_of : simpl never.

Lemma is_header_of (raw : str) :
  is_header raw = true -> exists emp_id emp_name, header_of raw = Some (emp_id, emp_name).
Proof.
  unfold is_header, header_of. intros H.
  destruct (re_match header_re (strip raw)) as [g |] eqn:Hg; [| discriminate].
  apply header_shape in Hg. destruct Hg as (emp_id & name & -> & _).
  simpl. eauto.
Qed.

Lemma not_header_of (raw : str) : is_header raw = false -> header_of raw = None.
Proof.
  unfold is_header, header_of.
  destruct (re_match header_re (strip raw)); [discriminate | reflexivity].
Qed.

Lemma header_of_is_header (raw : str) (p : str * str) :
  header_of raw = Some p -> is_header raw = true.
Proof.
  unfold is_header, header_of.
  destruct (re_match header_re (strip raw)); [reflexivity | discriminate].
Qed.

Lemma open_employee_header (st : loop_state) (raw emp_id emp_name : str) :
  header_of raw = Some (emp_id, emp_name) ->
  open_employee st (strip raw) =
    Ok {| st_employees := st_employees st ++ [new_employee emp_id emp_name];
          current_employee := Some (length (st_employees st)) |}.
Proof.
  unfold header_of, open_employee. intros H.
  destruct (re_match header_re (strip raw)) as [g |] eqn:Hg; [| discriminate].
  apply header_shape in Hg. destruct Hg as (i & n & -> & _).
  simpl in *. injection H as <- <-. reflexivity.
Qed.

Lemma open_employee_none (st : loop_state) (raw : str) :
  is_header raw = false -> open_employee st (strip raw) = Ok st.
Proof.
  unfold is_header, open_employee.
  destruct (re_match header_re (strip raw)); [discriminate | reflexivity].
Qed.

(** The entry of a matched earnings row: the groups are all there and no
    cleaning raises. *)
Lemma earning_of_match_row (pos : nat) (s : str) (m : groups) :
  match_at earning_re pos s = Some m ->
  exists d a b c row post,
    s = row ++ post /\ earning_row d a b c row /\
    earning_of_match m =
      Ok {| type := Hourly; date := d;
            rate := numeric_cleaning (Some a);
            hours := numeric_cleaning (Some b);
            amount := numeric_cleaning (Some c) |}.
Proof.
  intros H. apply earning_shape in H.
  destruct H as (d & a & b & c & row & post & -> & Hrow & ->).
  exists d, a, b, c, row, post. split; [reflexivity |]. split; [exact Hrow |].
  unfold earning_of_match. simpl.
  rewrite !clean_currency_refines. reflexivity.
Qed.

Lemma earning_of_match_ok (line : str) (m : groups) :
  re_search earning_re line = Some m -> exists x, earning_of_match m = Ok x.
Proof.
  intros H. apply search_shape in H. destruct H as (pre & suf & -> & H).
  apply earning_of_match_row in H. destruct H as (d & a & b & c & row & post & _ & _ & H).
  eauto.
Qed.

Lemma entry_of_none (raw : str) :
  entry_of raw = None <-> re_search earning_re (strip raw) = None.
Proof.
  unfold entry_of. split; intros H.
  - destruct (re_search earning_re (strip raw)) as [m |] eqn:Hm; [| reflexivity].
    destruct (earning_of_match_ok _ _ Hm) as [x Hx]. rewrite Hx in H. discriminate.
  - rewrite H. reflexivity.
Qed.

Lemma entry_of_row (raw : str) (m : groups) (d a b c : str) :
  re_search earning_re (strip raw) = Some m ->
  m = earning_groups d a b c ->
  entry_of raw = Some (earning_entry d a b c).
Proof.
  intros Hm ->. unfold entry_of. rewrite Hm.
  unfold earning_of_match, earning_groups. simpl.
  rewrite !clean_currency_refines. reflexivity.
Qed.

(** The entry of a line that holds an earnings row is that of the leftmost
    row of the line, with the last token as long as it can be. *)
Lemma entry_of_leftmost_row (raw : str) :
  (exists pre d a b c row post, row_in (strip raw) pre d a b c row post) ->
  exists pre d a b c row post,
    row_in (strip raw) pre d a b c row post /\
    stops is_numeric post /\
    (forall pre2 d2 a2 b2 c2 row2 post2,
       row_in (strip raw) pre2 d2 a2 b2 c2 row2 post2 ->
       (length pre <= length pre2)%nat) /\
    entry_of raw = Some (earning_entry d a b c).
Proof.
  intros (pre0 & d0 & a0 & b0 & c0 & row0 & post0 & Hline0 & Hrow0).
  destruct (re_search earning_re (strip raw)) as [m |] eqn:Hs.
  - pose proof Hs as Hs0. unfold re_search in Hs0.
    apply search_from_sound in Hs0.
    destruct Hs0 as (pre & suf & Hline & Hm & Hleft). simpl in Hm.
    apply earning_match_exact in Hm.
    destruct Hm as (d & a & b & c & row & post & -> & Hrow & Hstop & ->).
    exists pre, d, a, b, c, row, post.
    split; [split; assumption |]. split; [exact Hstop |]. split.
    + intros pre2 d2 a2 b2 c2 row2 post2 [Hline2 Hrow2].
      destruct (le_lt_dec (length pre) (length pre2)) as [Hle | Hlt]; [exact Hle |].
      specialize (Hleft pre2 (row2 ++ post2) Hline2 Hlt). simpl in Hleft.
      destruct (earning_row_matches (length pre2) d2 a2 b2 c2 row2 post2 Hrow2) as [g Hg].
      congruence.
    + apply (entry_of_row raw _ d a b c Hs). reflexivity.
  - unfold re_search in Hs.
    pose proof (search_from_none _ _ _ Hs pre0 (row0 ++ post0) Hline0) as Hnone.
    simpl in Hnone.
    destruct (earning_row_matches (length pre0) d0 a0 b0 c0 row0 post0 Hrow0) as [g Hg].
    congruence.
Qed.

Lemma totals_of_unmatched (raw : str) :
  re_search total_re (strip raw) = None -> totals_of raw = None.
Proof.
  intros H. unfold totals_of. rewrite H.
  destruct (entry_of raw); [reflexivity |].
  destruct (contains (str_of "Total Earnings:") (strip raw)); reflexivity.
Qed.

Lemma totals_of_matched (raw : str) (m : groups) (g1 g2 : str) :
  re_search earning_re (strip raw) = None ->
  contains TOTAL_MARKER (strip raw) = true ->
  re_search total_re (strip raw) = Some m ->
  group m 1 = Ok g1 -> group m 2 = Ok g2 ->
  totals_of raw = Some (numeric_cleaning (Some g1), numeric_cleaning (Some g2)).
Proof.
  intros He Hc Hm H1 H2. unfold totals_of.
  rewrite (proj2 (entry_of_none raw) He).
  unfold TOTAL_MARKER in Hc. rewrite Hc, Hm, H1. simpl.
  rewrite clean_currency_refines, H2. simpl.
  rewrite clean_currency_refines. reflexivity.
Qed.

Lemma update_employee_ok (st : loop_state) (i : nat) (e : employee)
    (f : employee -> employee) :
  st_employees st !! i = Some e ->
  update_employee i f st =
    Ok {| st_employees := <[i := f e]> (st_employees st);
          current_employee := current_employee st |}.
Proof. unfold update_employee. intros ->. reflexivity. Qed.

(** The line after the header branch, with a current employee. *)
Lemma parse_line_step (st st1 : loop_state) (raw : str) (i : nat) (e : employee) :
  open_employee st (strip raw) = Ok st1 ->
  current_employee st1 = Some i ->
  st_employees st1 !! i = Some e ->
  parse_line st raw =
    Ok {| st_employees := <[i := absorb e raw]> (st_employees st1);
          current_employee := Some i |}.
Proof.
  intros Hopen Hcur He. unfold parse_line. rewrite Hopen. simpl. rewrite Hcur.
  unfold absorb, totals_of, entry_of.
  destruct (re_search earning_re (strip raw)) as [m |] eqn:Hm.
  - destruct (earning_of_match_ok _ _ Hm) as [x Hx]. rewrite Hx. simpl.
    rewrite (update_employee_ok _ _ _ _ He), Hcur. reflexivity.
  - unfold total_branch. rewrite Hcur.
    assert (Hid : Ok st1 = Ok {| st_employees := <[i := e]> (st_employees st1);
                                 current_employee := Some i |}).
    { rewrite (list_insert_id _ _ _ He). destruct st1; simpl in *; congruence. }
    destruct (contains (str_of "Total Earnings:") (strip raw)); [| exact Hid].
    destruct (re_search total_re (strip raw)) as [g |] eqn:Hg; [| exact Hid].
    apply search_shape in Hg. destruct Hg as (pre & suf & _ & Hg).
    apply total_shape in Hg. destruct Hg as (a & b & -> & _).
    simpl. rewrite !clean_currency_refines. simpl.
    rewrite (update_employee_ok _ _ _ _ He), Hcur. reflexivity.
Qed.

(** The line after the header branch, with no current employee. *)
Lemma parse_line_idle (st st1 : loop_state) (raw : str) :
  open_employee st (strip raw) = Ok st1 ->
  current_employee st1 = None ->
  parse_line st raw = Ok st1.
Proof.
  intros Hopen Hcur. unfold parse_line. rewrite Hopen. simpl. rewrite Hcur.
  unfold total_branch. rewrite Hcur. reflexivity.
Qed.

Lemma parse_line_header (st : loop_state) (raw emp_id emp_name : str) :
  header_of raw = Some (emp_id, emp_name) ->
  parse_line st raw =
    Ok {| st_employees := st_employees st ++ [absorb (new_employee emp_id emp_name) raw];
          current_employee := Some (length (st_employees st)) |}.
Proof.
  intros Hh.
  rewrite (parse_line_step st _ raw _ (new_employee emp_id emp_name)
             (open_employee_header st raw _ _ Hh) eq_refl).
  2: { simpl. apply list_lookup_middle. reflexivity. }
  simpl. rewrite insert_app_r_alt by lia. rewrite Nat.sub_diag. reflexivity.
Qed.

Lemma parse_line_current (st : loop_state) (raw : str) (i : nat) (e : employee) :
  current_employee st = Some i ->
  st_employees st !! i = Some e ->
  is_header raw = false ->
  parse_line st raw =
    Ok {| st_employees := <[i := absorb e raw]> (st_employees st);
          current_employee := Some i |}.
Proof.
  intros Hcur He Hn.
  exact (parse_line_step st st raw i e (open_employee_none st raw Hn) Hcur He).
Qed.

Lemma parse_line_no_current (st : loop_state) (raw : str) :
  current_employee st = None ->
  is_header raw = false ->
  parse_line st raw = Ok st.
Proof.
  intros Hcur Hn.
  exact (parse_line_idle st st raw (open_employee_none st raw Hn) Hcur).
Qed.

Lemma parse_line_valid (st : loop_state) (raw : str) :
  valid st -> exists st', parse_line st raw = Ok st' /\ valid st'.
Proof.
  intros Hv. destruct (is_header raw) eqn:Hh.
  - apply is_header_of in Hh. destruct Hh as (a & b & Hh).
    rewrite (parse_line_header st raw a b Hh). eexists. split; [reflexivity |].
    unfold valid. simpl. rewrite list_lookup_middle by reflexivity. eauto.
  - unfold valid in Hv. destruct (current_employee st) as [i |] eqn:Hcur.
    + destruct Hv as [e He]. rewrite (parse_line_current st raw i e Hcur He Hh).
      eexists. split; [reflexivity |]. unfold valid. simpl.
      apply lookup_lt_is_Some. rewrite length_insert.
      apply lookup_lt_Some in He. exact He.
    + rewrite (parse_line_no_current st raw Hcur Hh).
      exists st. split; [reflexivity |]. unfold valid. rewrite Hcur. exact I.
Qed.

(** ** The loop *)

Lemma parse_lines_valid (lines : list str) :
  forall st, valid st -> exists st', parse_lines st lines = Ok st' /\ valid st'.
Proof.
  induction lines as [| raw rest IH]; intros st Hv; simpl.
  - eauto.
  - destruct (parse_line_valid st raw Hv) as (st1 & -> & Hv1). simpl.
    apply IH, Hv1.
Qed.

(** Lines without a header fold into the current employee. *)
Lemma parse_lines_current (seg : list str) :
  no_header seg ->
  forall (st : loop_state) (i : nat) (e : employee),
  current_employee st = Some i ->
  st_employees st !! i = Some e ->
  parse_lines st seg =
    Ok {| st_employees := <[i := fold_left absorb seg e]> (st_employees st);
          current_employee := Some i |}.
Proof.
  induction 1 as [| raw seg Hraw Hseg IH]; intros st i e Hcur He; simpl.
  - rewrite (list_insert_id _ _ _ He). destruct st; simpl in *; congruence.
  - rewrite (parse_line_current st raw i e Hcur He Hraw). simpl.
    rewrite (IH {| st_employees := <[i := absorb e raw]> (st_employees st);
                   current_employee := Some i |} i (absorb e raw) eq_refl).
    + simpl. rewrite list_insert_insert_eq. reflexivity.
    + simpl. apply list_lookup_insert_eq. apply lookup_lt_Some in He. exact He.
Qed.

Lemma parse_lines_no_current (seg : list str) :
  no_header seg ->
  forall st, current_employee st = None -> parse_lines st seg = Ok st.
Proof.
  induction 1 as [| raw seg Hraw Hseg IH]; intros st Hcur; simpl; [reflexivity |].
  rewrite (parse_line_no_current st raw Hcur Hraw). simpl. apply IH, Hcur.
Qed.

Lemma parse_lines_records (lines : list str) :
  forall (es : list employee) (cur : option employee),
  exists st, parse_lines (state_of es cur) lines = Ok st /\
             st_employees st = es ++ records_from cur lines.
Proof.
  induction lines as [| raw rest IH]; intros es cur; simpl.
  - exists (state_of es cur). split; [reflexivity |].
    destruct cur; unfold state_of; simpl; [reflexivity | symmetry; apply app_nil_r].
  - destruct (header_of raw) as [[emp_id emp_name] |] eqn:Hh.
    + pose proof (open_employee_header (state_of es cur) raw _ _ Hh) as Hopen.
      rewrite (parse_line_step _ _ raw _ (new_employee emp_id emp_name) Hopen eq_refl).
      2: { simpl. apply list_lookup_middle. reflexivity. }
      simpl.
      assert (Hst : st_employees (state_of es cur) = es ++ option_list cur).
      { destruct cur; unfold state_of; simpl; [reflexivity | symmetry; apply app_nil_r]. }
      rewrite Hst.
      destruct (IH (es ++ option_list cur)
                   (Some (absorb (new_employee emp_id emp_name) raw)))
        as (st & Hst' & Hes).
      exists st. split.
      * rewrite <- Hst'. f_equal. unfold state_of. f_equal.
        rewrite insert_app_r_alt by lia.
        rewrite Nat.sub_diag. reflexivity.
      * rewrite Hes. symmetry. apply app_assoc.
    + assert (Hn : is_header raw = false).
      { destruct (is_header raw) eqn:E; [| reflexivity].
        apply is_header_of in E. destruct E as (a & b & E). congruence. }
      pose proof (open_employee_none (state_of es cur) raw Hn) as Hopen.
      destruct cur as [e |]; simpl.
      * rewrite (parse_line_step _ _ raw (length es) e Hopen eq_refl).
        2: { unfold state_of. simpl. apply list_lookup_middle. reflexivity. }
        simpl.
        destruct (IH es (Some (absorb e raw))) as (st & Hst' & Hes).
        exists st. split; [| exact Hes].
        rewrite <- Hst'. f_equal. unfold state_of. f_equal.
        rewrite insert_app_r_alt by lia.
        rewrite Nat.sub_diag. reflexivity.
      * rewrite (parse_line_idle _ _ raw Hopen eq_refl). simpl.
        apply (IH es None).
Qed.

Lemma parse_text_data_records (self : DataExtractor) (text : str) :
  parse_text_data self text =
    Ok {| pdf_path := pdf_path self;
          data := {| employees := employees (data self)
                                  ++ records_from None (split_lines text) |} |}.
Proof.
  unfold parse_text_data.
  destruct (parse_lines_records (split_lines text) (employees (data self)) None)
    as (st & Hst & Hes).
  unfold state_of in Hst. rewrite Hst. simpl. rewrite Hes. reflexivity.
Qed.

(** ** Sections of a document *)

Lemma records_from_app (l1 l2 : list str) :
  header_led l2 ->
  forall cur, records_from cur (l1 ++ l2) = records_from cur l1 ++ records_from None l2.
Proof.
  intros Hl2. induction l1 as [| raw l1 IH]; intros cur; simpl.
  - destruct l2 as [| h l2]; simpl.
    + symmetry. apply app_nil_r.
    + simpl in Hl2. apply is_header_of in Hl2. destruct Hl2 as (a & b & ->).
      reflexivity.
  - destruct (header_of raw) as [[a b] |].
    + rewrite IH. apply app_assoc.
    + apply IH.
Qed.

Lemma records_from_body (seg : list str) :
  no_header seg ->
  forall cur, records_from cur seg = option_list (option_map (fun e => fold_left absorb seg e) cur).
Proof.
  induction 1 as [| raw seg Hraw Hseg IH]; intros cur; simpl.
  - destruct cur; reflexivity.
  - rewrite (not_header_of raw Hraw), IH. destruct cur; reflexivity.
Qed.

Lemma records_from_section (h emp_id emp_name : str) (seg : list str) :
  header_of h = Some (emp_id, emp_name) -> no_header seg ->
  records_from None (h :: seg) =
    [fold_left absorb (h :: seg) (new_employee emp_id emp_name)].
Proof.
  intros Hh Hseg. simpl. rewrite Hh. simpl.
  rewrite (records_from_body seg Hseg). reflexivity.
Qed.

Lemma absorb_identity (e : employee) (raw : str) :
  employee_id (absorb e raw) = employee_id e /\
  employee_name (absorb e raw) = employee_name e.
Proof.
  unfold absorb. destruct (entry_of raw); [split; reflexivity |].
  destruct (totals_of raw) as [[h a] |]; split; reflexivity.
Qed.

Lemma absorb_earnings (e : employee) (raw : str) :
  earnings (absorb e raw) = earnings e ++ option_list (entry_of raw).
Proof.
  unfold absorb. destruct (entry_of raw); [reflexivity |].
  destruct (totals_of raw) as [[h a] |]; simpl; symmetry; apply app_nil_r.
Qed.

Lemma fold_absorb_identity (seg : list str) :
  forall e, employee_id (fold_left absorb seg e) = employee_id e /\
            employee_name (fold_left absorb seg e) = employee_name e.
Proof.
  induction seg as [| raw seg IH]; intros e; simpl; [split; reflexivity |].
  destruct (IH (absorb e raw)) as [-> ->]. apply absorb_identity.
Qed.

Lemma fold_absorb_earnings (seg : list str) :
  forall e, earnings (fold_left absorb seg e) = earnings e ++ omap entry_of seg.
Proof.
  induction seg as [| raw seg IH]; intros e; simpl.
  - symmetry. apply app_nil_r.
  - rewrite IH, absorb_earnings, <- app_assoc. f_equal.
    destruct (entry_of raw); reflexivity.
Qed.

Lemma absorb_totals (e : employee) (raw : str) :
  totals (absorb e raw) =
    match totals_of raw with
    | Some (h, a) => (Some h, Some a)
    | None => totals e
    end.
Proof.
  unfold absorb, totals_of.
  destruct (entry_of raw); [reflexivity |].
  match goal with
  | |- context [match ?x with Some _ => _ | None => _ end] =>
      destruct x as [[h a] |]; reflexivity
  end.
Qed.

Lemma fold_absorb_totals_keep (seg : list str) :
  Forall (fun raw => totals_of raw = None) seg ->
  forall e, totals (fold_left absorb seg e) = totals e.
Proof.
  induction 1 as [| raw seg Hraw Hseg IH]; intros e; simpl; [reflexivity |].
  rewrite IH, absorb_totals, Hraw. reflexivity.
Qed.

Lemma fold_absorb_totals_last (s1 s2 : list str) (t : str) (h a : option float) :
  totals_of t = Some (h, a) ->
  Forall (fun raw => totals_of raw = None) s2 ->
  forall e, totals (fold_left absorb (s1 ++ t :: s2) e) = (Some h, Some a).
Proof.
  intros Ht Hs2 e. rewrite fold_left_app. simpl.
  rewrite (fold_absorb_totals_keep s2 Hs2), absorb_totals, Ht. reflexivity.
Qed.

Lemma fresh_state : fresh = state_of [] None.
Proof. reflexivity. Qed.

(** A header line, the lines up to the next header line, and the employee
    they make, between the employees of the lines before and after. *)
Lemma parse_section (pre seg post : list str) (h emp_id emp_name : str) :
  header_of h = Some (emp_id, emp_name) ->
  no_header seg -> header_led post ->
  exists st_pre st_post st,
    parse_lines fresh pre = Ok st_pre /\
    parse_lines fresh post = Ok st_post /\
    parse_lines fresh (pre ++ h :: seg ++ post) = Ok st /\
    st_employees st =
      st_employees st_pre
      ++ fold_left absorb (h :: seg) (new_employee emp_id emp_name)
      :: st_employees st_post.
Proof.
  intros Hh Hseg Hpost. rewrite fresh_state.
  destruct (parse_lines_records pre [] None) as (st_pre & Hpre & Epre).
  destruct (parse_lines_records post [] None) as (st_post & Hpo & Epost).
  destruct (parse_lines_records (pre ++ h :: seg ++ post) [] None) as (st & Hst & Est).
  exists st_pre, st_post, st. repeat (split; [assumption |]).
  rewrite Est, Epre, Epost. simpl. f_equal.
  rewrite records_from_app by (simpl; apply (header_of_is_header h _ Hh)).
  f_equal.
  change (h :: seg ++ post) with ((h :: seg) ++ post).
  rewrite (records_from_app (h :: seg) post Hpost).
  rewrite (records_from_section h _ _ seg Hh Hseg). reflexivity.
Qed.

(** ** Pages and the JSON document *)

Lemma page_employees_records (text : str) :
  page_employees (Some text) = records_from None (split_lines text).
Proof. unfold page_employees. rewrite parse_text_data_records. reflexivity. Qed.

Lemma extract_pages_apart (pages : pdf) :
  forall self,
  extract_pages self pages =
    Ok {| pdf_path := pdf_path self;
          data := {| employees := employees (data self)
                                  ++ concat (map page_employees pages) |} |}.
Proof.
  induction pages as [| page pages IH]; intros self; simpl.
  - rewrite app_nil_r. destruct self as [p [es]]. reflexivity.
  - destruct page as [text |].
    + rewrite page_employees_records.
      destruct (is_empty text) eqn:He.
      * destruct text; [| discriminate]. simpl. rewrite IH. reflexivity.
      * rewrite parse_text_data_records. simpl. rewrite IH. simpl.
        rewrite <- app_assoc. reflexivity.
    + simpl. apply IH.
Qed.

Lemma json_totals_members (e : employee) :
  member (str_of "total_hours") (members_of (json_of_employee e))
    = option_map json_of_number (total_hours e)
  /\ member (str_of "total_amount") (members_of (json_of_employee e))
    = option_map json_of_number (total_amount e).
Proof.
  destruct e as [i n es [h |] [a |]]; split; reflexivity.
Qed.

(** * The claims *)

(** ** Pages *)

(** C1 (amended): the list of employees is kept from page to page, the
    current employee is not.  [extract] parses every page as a new parser
    would and puts the employees of the pages one after the other, so an
    earnings row is appended only to an employee that a header line of its
    own page opened. *)
Theorem pages_are_parsed_apart (self : DataExtractor) (pages : pdf) :
  exists self',
    extract self pages = Ok (self', data self') /\
    pdf_path self' = pdf_path self /\
    employees (data self') =
      employees (data self) ++ concat (map page_employees pages).
Proof.
  unfold extract. rewrite extract_pages_apart. simpl.
  exists {| pdf_path := pdf_path self;
            data := {| employees := employees (data self)
                                    ++ concat (map page_employees pages) |} |}.
  repeat split.
Qed.

(** C1, as stated, fails: the header line on the first page and the
    earnings row on the second give an employee with no earnings, where the
    same two lines on one page give the entry. *)
Lemma earning_row_on_next_page_is_dropped :
  extract (init (str_of "invoice.pdf")) [Some smith_header; Some earning_line]
  = Ok ({| pdf_path := str_of "invoice.pdf"; data := {| employees := [smith] |} |},
        {| employees := [smith] |})
  /\ earnings smith = []
  /\ extract (init (str_of "invoice.pdf")) [Some (smith_header ++ LF ++ earning_line)]
     = Ok ({| pdf_path := str_of "invoice.pdf";
              data := {| employees := [append_earning earning_line_entry smith] |} |},
           {| employees := [append_earning earning_line_entry smith] |}).
Proof. repeat split; vm_compute; reflexivity. Qed.

(** ** Entries and the employee they belong to *)

(** C2: every earnings entry belongs to exactly one employee, the one the
    most recent header line at or before the entry's line opened.  For a
    header line [h], the lines [seg] up to the next header line and any
    lines before and after, the output is the employees of the lines
    before, then one employee with the identifier and name of [h] whose
    earnings are the entries of [h :: seg] in order, then the employees of
    the lines after.  Lines with no header line among them, earnings rows
    included, give no employee and no entry. *)
Theorem entries_belong_to_latest_header :
  (forall (pre seg post : list str) (h emp_id emp_name : str),
     header_of h = Some (emp_id, emp_name) ->
     no_header seg -> header_led post ->
     exists st_pre st_post st r,
       parse_lines fresh pre = Ok st_pre /\
       parse_lines fresh post = Ok st_post /\
       parse_lines fresh (pre ++ h :: seg ++ post) = Ok st /\
       st_employees st = st_employees st_pre ++ r :: st_employees st_post /\
       employee_id r = emp_id /\ employee_name r = emp_name /\
       earnings r = omap entry_of (h :: seg))
  /\ (forall lines, no_header lines -> parse_lines fresh lines = Ok fresh).
Proof.
  split.
  - intros pre seg post h emp_id emp_name Hh Hseg Hpost.
    destruct (parse_section pre seg post h _ _ Hh Hseg Hpost)
      as (st_pre & st_post & st & Hpre & Hpo & Hst & Est).
    exists st_pre, st_post, st, (fold_left absorb (h :: seg) (new_employee emp_id emp_name)).
    repeat (split; [assumption |]).
    destruct (fold_absorb_identity (h :: seg) (new_employee emp_id emp_name)) as [-> ->].
    rewrite fold_absorb_earnings. repeat split.
  - intros lines Hn. apply parse_lines_no_current; [exact Hn | reflexivity].
Qed.

Lemma entries_belong_to_latest_header_witness :
  (exists st_pre st_post st r,
     parse_lines fresh [earning_line] = Ok st_pre /\
     parse_lines fresh [str_of "2002 - Doe, Jane"] = Ok st_post /\
     parse_lines fresh
       ([earning_line] ++ smith_header :: [earning_line; earning_line]
        ++ [str_of "2002 - Doe, Jane"]) = Ok st /\
     st_employees st = st_employees st_pre ++ r :: st_employees st_post /\
     employee_id r = str_of "1001" /\ employee_name r = str_of "Smith, John" /\
     earnings r = omap entry_of (smith_header :: [earning_line; earning_line]))
  /\ parse_lines fresh [earning_line] = Ok fresh.
Proof.
  split.
  - apply (proj1 entries_belong_to_latest_header); by_evaluation.
  - apply (proj2 entries_belong_to_latest_header); by_evaluation.
Defined.

(** ** Scenario 1 *)

(** C3: parsing the three lines of scenario 1 yields exactly one employee
    record with id "1001", name "Smith, John", one earnings entry of type
    "Hourly", date "01/02/25", rate 10.0, hours 5.0, amount 50.0, and
    total_hours 5.0 and total_amount 50.0 set on that record; the same holds
    for the three lines given as one text to [parse_text_data] on a new
    instance. *)
Theorem scenario_1_parse :
  parse_lines fresh scenario_1_lines =
    Ok {| st_employees := [scenario_1_employee]; current_employee := Some O |}
  /\ split_lines scenario_1_text = scenario_1_lines
  /\ forall path,
       parse_text_data (init path) scenario_1_text =
         Ok {| pdf_path := path; data := {| employees := [scenario_1_employee] |} |}.
Proof.
  split; [vm_compute; reflexivity |].
  split; [vm_compute; reflexivity |].
  intros path. vm_compute. reflexivity.
Qed.

(** ** Numeric cleaning *)

(** C4: [clean_currency] strips every character that is not a digit, a
    decimal point or a minus sign and parses the remainder as a decimal, for
    every raw token and without raising; "$1,234.56" gives 1234.56, an empty
    or absent token gives absent, and "abc" gives absent. *)
Theorem clean_currency_numeric_cleaning :
  (forall value, clean_currency value = Ok (numeric_cleaning value))
  /\ clean_currency (Some (str_of "$1,234.56")) = Ok (Some float_1234_56)
  /\ nearest_binary64 float_1234_56 123456 100
  /\ clean_currency (Some (str_of "")) = Ok None
  /\ clean_currency None = Ok None
  /\ clean_currency (Some (str_of "abc")) = Ok None.
Proof.
  split; [exact clean_currency_refines |].
  split; [vm_compute; reflexivity |].
  split; [vm_compute; intuition discriminate |].
  repeat split; vm_compute; reflexivity.
Qed.

(** ** Earnings rows *)

(** C5 (amended): for every line that holds "Hourly-", white space, a date
    of the form dd/dd/dd and three numeric tokens with white space between,
    while an employee is current, one entry is appended to the current
    employee (the one the line opens, when the line is a header line too),
    with the type "Hourly" and the date and the three tokens, cleaned as
    rate, hours and amount in that order, of the leftmost such row of the
    line, the last token as long as it can be; no other employee changes. *)
Theorem earning_row_is_appended (st : loop_state) (raw : str) (i : nat) (e : employee) :
  current_employee st = Some i ->
  st_employees st !! i = Some e ->
  (exists pre d a b c row post, row_in (strip raw) pre d a b c row post) ->
  exists pre d a b c row post st1 j ej,
    row_in (strip raw) pre d a b c row post /\
    stops is_numeric post /\
    (forall pre2 d2 a2 b2 c2 row2 post2,
       row_in (strip raw) pre2 d2 a2 b2 c2 row2 post2 ->
       (length pre <= length pre2)%nat) /\
    open_employee st (strip raw) = Ok st1 /\
    current_employee st1 = Some j /\ st_employees st1 !! j = Some ej /\
    (is_header raw = false -> st1 = st /\ j = i /\ ej = e) /\
    parse_line st raw =
      Ok {| st_employees :=
              <[j := append_earning
                       {| type := str_of "Hourly"; date := d;
                          rate := numeric_cleaning (Some a);
                          hours := numeric_cleaning (Some b);
                          amount := numeric_cleaning (Some c) |} ej]>
                (st_employees st1);
            current_employee := Some j |} /\
    clean_currency (Some a) = Ok (numeric_cleaning (Some a)) /\
    clean_currency (Some b) = Ok (numeric_cleaning (Some b)) /\
    clean_currency (Some c) = Ok (numeric_cleaning (Some c)).
Proof.
  intros Hcur He Hrow.
  destruct (entry_of_leftmost_row raw Hrow)
    as (pre & d & a & b & c & row & post & Hin & Hstop & Hleft & Hentry).
  exists pre, d, a, b, c, row, post.
  assert (Habs : forall x, absorb x raw = append_earning (earning_entry d a b c) x).
  { intros x. unfold absorb. rewrite Hentry. reflexivity. }
  destruct (is_header raw) eqn:Hh.
  - destruct (is_header_of raw Hh) as (emp_id & emp_name & Hab).
    pose proof (open_employee_header st raw _ _ Hab) as Hopen.
    exists {| st_employees := st_employees st ++ [new_employee emp_id emp_name];
              current_employee := Some (length (st_employees st)) |},
           (length (st_employees st)), (new_employee emp_id emp_name).
    split; [exact Hin |]. split; [exact Hstop |]. split; [exact Hleft |].
    split; [exact Hopen |]. split; [reflexivity |].
    split; [apply list_lookup_middle; reflexivity |].
    split; [discriminate |].
    split; [| repeat split; apply clean_currency_refines].
    rewrite (parse_line_step st _ raw _ (new_employee emp_id emp_name) Hopen eq_refl).
    + rewrite Habs. reflexivity.
    + apply list_lookup_middle. reflexivity.
  - pose proof (open_employee_none st raw Hh) as Hopen.
    exists st, i, e.
    split; [exact Hin |]. split; [exact Hstop |]. split; [exact Hleft |].
    split; [exact Hopen |]. split; [exact Hcur |]. split; [exact He |].
    split; [auto |].
    split; [| repeat split; apply clean_currency_refines].
    rewrite (parse_line_current st raw i e Hcur He Hh), Habs. reflexivity.
Qed.

Lemma earning_row_is_appended_witness :
  exists pre d a b c row post st1 j ej,
    row_in (strip earning_line) pre d a b c row post /\
    stops is_numeric post /\
    (forall pre2 d2 a2 b2 c2 row2 post2,
       row_in (strip earning_line) pre2 d2 a2 b2 c2 row2 post2 ->
       (length pre <= length pre2)%nat) /\
    open_employee smith_open (strip earning_line) = Ok st1 /\
    current_employee st1 = Some j /\ st_employees st1 !! j = Some ej /\
    (is_header earning_line = false -> st1 = smith_open /\ j = O /\ ej = smith) /\
    parse_line smith_open earning_line =
      Ok {| st_employees :=
              <[j := append_earning
                       {| type := str_of "Hourly"; date := d;
                          rate := numeric_cleaning (Some a);
                          hours := numeric_cleaning (Some b);
                          amount := numeric_cleaning (Some c) |} ej]>
                (st_employees st1);
            current_employee := Some j |} /\
    clean_currency (Some a) = Ok (numeric_cleaning (Some a)) /\
    clean_currency (Some b) = Ok (numeric_cleaning (Some b)) /\
    clean_currency (Some c) = Ok (numeric_cleaning (Some c)).
Proof.
  apply (earning_row_is_appended smith_open earning_line O smith);
    [reflexivity | reflexivity |].
  exists [], (str_of "01/02/25"), (str_of "10.00"), (str_of "5.00"), (str_of "50.00"),
         earning_line, [].
  split; [vm_compute; reflexivity |].
  exists (str_of " "), (str_of " "), (str_of " "), (str_of " ").
  split; [vm_compute; reflexivity |].
  unfold token, date_token, run.
  repeat split;
    try (repeat (constructor; [vm_compute; reflexivity |]); constructor);
    try (simpl; lia).
  exists (str_of "01"), (str_of "02"), (str_of "25").
  repeat split;
    try (repeat (constructor; [vm_compute; reflexivity |]); constructor).
Defined.

(** C5, as stated, fails: a row whose type token is not "Hourly-" is not an
    earnings row for the pattern, and the line changes nothing. *)
Lemma other_type_token_is_skipped :
  re_search earning_re (strip salary_line) = None
  /\ entry_of salary_line = None
  /\ parse_line smith_open salary_line = Ok smith_open.
Proof. repeat split; vm_compute; reflexivity. Qed.

(** ** Totals in the JSON document *)

(** C6 (amended): an employee object of the JSON output has the members
    total_hours and total_amount exactly when a total line set them on the
    employee, each a number, or null when its token does not parse; the
    object of an employee for which no line set totals has neither member. *)
Theorem json_totals_only_when_set :
  (forall self,
     to_json self =
       JObject [ (str_of "employees",
                  JArray (map json_of_employee (employees (data self)))) ])
  /\ (forall e,
        member (str_of "total_hours") (members_of (json_of_employee e))
          = option_map json_of_number (total_hours e)
        /\ member (str_of "total_amount") (members_of (json_of_employee e))
          = option_map json_of_number (total_amount e))
  /\ (forall (pre seg post : list str) (h emp_id emp_name : str),
        header_of h = Some (emp_id, emp_name) ->
        no_header seg -> header_led post ->
        Forall (fun raw => totals_of raw = None) (h :: seg) ->
        exists st_pre st_post st r,
          parse_lines fresh pre = Ok st_pre /\
          parse_lines fresh post = Ok st_post /\
          parse_lines fresh (pre ++ h :: seg ++ post) = Ok st /\
          st_employees st = st_employees st_pre ++ r :: st_employees st_post /\
          employee_id r = emp_id /\ employee_name r = emp_name /\
          member (str_of "total_hours") (members_of (json_of_employee r)) = None /\
          member (str_of "total_amount") (members_of (json_of_employee r)) = None)
  /\ (forall (pre seg post s1 s2 : list str) (h t emp_id emp_name : str)
             (hours_set amount_set : option float),
        header_of h = Some (emp_id, emp_name) ->
        no_header seg -> header_led post ->
        h :: seg = s1 ++ t :: s2 ->
        totals_of t = Some (hours_set, amount_set) ->
        Forall (fun raw => totals_of raw = None) s2 ->
        exists st_pre st_post st r,
          parse_lines fresh pre = Ok st_pre /\
          parse_lines fresh post = Ok st_post /\
          parse_lines fresh (pre ++ h :: seg ++ post) = Ok st /\
          st_employees st = st_employees st_pre ++ r :: st_employees st_post /\
          employee_id r = emp_id /\ employee_name r = emp_name /\
          member (str_of "total_hours") (members_of (json_of_employee r))
            = Some (json_of_number hours_set) /\
          member (str_of "total_amount") (members_of (json_of_employee r))
            = Some (json_of_number amount_set)).
Proof.
  split; [reflexivity |]. split; [exact json_totals_members |]. split.
  - intros pre seg post h emp_id emp_name Hh Hseg Hpost Hnone.
    destruct (parse_section pre seg post h _ _ Hh Hseg Hpost)
      as (st_pre & st_post & st & Hpre & Hpo & Hst & Est).
    pose proof (fold_absorb_identity (h :: seg) (new_employee emp_id emp_name)) as [Hi Hn].
    pose proof (fold_absorb_totals_keep (h :: seg) Hnone (new_employee emp_id emp_name)) as Ht.
    remember (fold_left absorb (h :: seg) (new_employee emp_id emp_name)) as r eqn:Hr.
    clear Hr. exists st_pre, st_post, st, r.
    repeat (split; [assumption |]).
    unfold totals in Ht. injection Ht as Hth Hta.
    destruct (json_totals_members r) as [-> ->].
    rewrite Hth, Hta. split; reflexivity.
  - intros pre seg post s1 s2 h t emp_id emp_name hs am Hh Hseg Hpost Heq Ht Hs2.
    destruct (parse_section pre seg post h _ _ Hh Hseg Hpost)
      as (st_pre & st_post & st & Hpre & Hpo & Hst & Est).
    pose proof (fold_absorb_identity (h :: seg) (new_employee emp_id emp_name)) as [Hi Hn].
    pose proof (fold_absorb_totals_last s1 s2 t _ _ Ht Hs2 (new_employee emp_id emp_name)) as Htot.
    rewrite <- Heq in Htot.
    remember (fold_left absorb (h :: seg) (new_employee emp_id emp_name)) as r eqn:Hr.
    clear Hr. exists st_pre, st_post, st, r.
    repeat (split; [assumption |]).
    unfold totals in Htot. injection Htot as Hth Hta.
    destruct (json_totals_members r) as [-> ->].
    rewrite Hth, Hta. split; reflexivity.
Qed.

Lemma json_totals_only_when_set_witness :
  (exists st_pre st_post st r,
     parse_lines fresh [] = Ok st_pre /\
     parse_lines fresh [] = Ok st_post /\
     parse_lines fresh ([] ++ smith_header :: [earning_line] ++ []) = Ok st /\
     st_employees st = st_employees st_pre ++ r :: st_employees st_post /\
     employee_id r = str_of "1001" /\ employee_name r = str_of "Smith, John" /\
     member (str_of "total_hours") (members_of (json_of_employee r)) = None /\
     member (str_of "total_amount") (members_of (json_of_employee r)) = None)
  /\ (exists st_pre st_post st r,
        parse_lines fresh [] = Ok st_pre /\
        parse_lines fresh [] = Ok st_post /\
        parse_lines fresh
          ([] ++ smith_header :: [earning_line; str_of "Total Earnings: 5.00 .."] ++ [])
          = Ok st /\
        st_employees st = st_employees st_pre ++ r :: st_employees st_post /\
        employee_id r = str_of "1001" /\ employee_name r = str_of "Smith, John" /\
        member (str_of "total_hours") (members_of (json_of_employee r))
          = Some (json_of_number (Some (float_of_int 5))) /\
        member (str_of "total_amount") (members_of (json_of_employee r))
          = Some (json_of_number None)).
Proof.
  split.
  - apply (proj1 (proj2 (proj2 json_totals_only_when_set))); by_evaluation.
  - apply (proj2 (proj2 (proj2 json_totals_only_when_set))
             [] [earning_line; str_of "Total Earnings: 5.00 .."] []
             [smith_header; earning_line] []
             smith_header (str_of "Total Earnings: 5.00 .."));
      by_evaluation.
Defined.

(** C6, as stated, fails: the object of an employee with no total line has
    no member total_hours and no member total_amount, where the claim has
    both with the value null. *)
Lemma json_without_totals_has_no_member :
  parse_text_data (init (str_of "invoice.pdf")) smith_header
  = Ok {| pdf_path := str_of "invoice.pdf"; data := {| employees := [smith] |} |}
  /\ to_json {| pdf_path := str_of "invoice.pdf"; data := {| employees := [smith] |} |}
     = JObject
         [ (str_of "employees",
            JArray
              [ JObject [ (str_of "employee_id", JString (str_of "1001"));
                          (str_of "employee_name", JString (str_of "Smith, John"));
                          (str_of "earnings", JArray []) ] ]) ]
  /\ member (str_of "total_hours") (members_of (json_of_employee smith)) = None
  /\ member (str_of "total_amount") (members_of (json_of_employee smith)) = None
  /\ member (str_of "total_hours") (members_of (json_of_employee smith)) <> Some JNull.
Proof.
  repeat split; try (vm_compute; reflexivity). discriminate.
Qed.

(** ** Total lines *)

(** C7: when a line holds the marker "Total Earnings:" and the total
    pattern does not match it, while an employee is current, the line is
    processed without error, parsing goes on with the next line, and the
    totals of every employee are what they were: unset totals stay unset.
    (A line that is also a header opens a new employee, whose totals are
    unset.) *)
Theorem total_line_without_two_numbers (st : loop_state) (raw : str)
    (i : nat) (e : employee) :
  current_employee st = Some i ->
  st_employees st !! i = Some e ->
  contains TOTAL_MARKER (strip raw) = true ->
  re_search total_re (strip raw) = None ->
  exists st' k ek,
    parse_line st raw = Ok st' /\
    (forall rest, parse_lines st (raw :: rest) = parse_lines st' rest) /\
    current_employee st' = Some k /\ st_employees st' !! k = Some ek /\
    totals ek = (if is_header raw then (None, None) else totals e) /\
    (is_header raw = false -> k = i) /\
    (forall j e0, st_employees st !! j = Some e0 ->
       exists e1, st_employees st' !! j = Some e1 /\ totals e1 = totals e0).
Proof.
  intros Hcur He _ Hs. pose proof (totals_of_unmatched raw Hs) as Ht.
  assert (Hkeep : forall x, totals (absorb x raw) = totals x).
  { intros x. rewrite absorb_totals, Ht. reflexivity. }
  destruct (is_header raw) eqn:Hh.
  - destruct (is_header_of raw Hh) as (a & b & Hab).
    pose proof (parse_line_header st raw a b Hab) as Hp.
    eexists _, (length (st_employees st)), (absorb (new_employee a b) raw).
    split; [exact Hp |]. split; [intros rest; simpl; rewrite Hp; reflexivity |].
    split; [reflexivity |]. simpl.
    split; [apply list_lookup_middle; reflexivity |].
    split; [apply Hkeep |]. split; [discriminate |].
    intros j e0 Hj. exists e0. split; [| reflexivity].
    rewrite lookup_app_l; [exact Hj |]. apply lookup_lt_Some in Hj. exact Hj.
  - pose proof (parse_line_current st raw i e Hcur He Hh) as Hp.
    pose proof (lookup_lt_Some _ _ _ He) as Hlt.
    eexists _, i, (absorb e raw).
    split; [exact Hp |]. split; [intros rest; simpl; rewrite Hp; reflexivity |].
    split; [reflexivity |]. simpl.
    split; [apply list_lookup_insert_eq, Hlt |].
    split; [apply Hkeep |]. split; [reflexivity |].
    intros j e0 Hj. destruct (decide (i = j)) as [<- | Hne].
    + exists (absorb e raw). split; [apply list_lookup_insert_eq, Hlt |].
      rewrite Hkeep. congruence.
    + exists e0. split; [| reflexivity].
      rewrite list_lookup_insert_ne by exact Hne. exact Hj.
Qed.

Lemma total_line_without_two_numbers_witness :
  exists st' k ek,
    parse_line smith_open (str_of "Total Earnings: 5.00") = Ok st' /\
    (forall rest, parse_lines smith_open (str_of "Total Earnings: 5.00" :: rest)
                  = parse_lines st' rest) /\
    current_employee st' = Some k /\ st_employees st' !! k = Some ek /\
    totals ek = (if is_header (str_of "Total Earnings: 5.00") then (None, None)
                 else totals smith) /\
    (is_header (str_of "Total Earnings: 5.00") = false -> k = O) /\
    (forall j e0, st_employees smith_open !! j = Some e0 ->
       exists e1, st_employees st' !! j = Some e1 /\ totals e1 = totals e0).
Proof.
  apply (total_line_without_two_numbers smith_open (str_of "Total Earnings: 5.00") O smith);
    by_evaluation.
Defined.

(** ** Malformed input *)

(** C8: [parse_text_data] never raises, whatever the instance and the
    text, and so [extract] returns for every document; a line that matches
    none of the three patterns leaves the state of the loop as it was; and
    a text none of whose lines matches the header pattern leaves a new
    instance with an empty employee list. *)
Theorem parse_never_raises :
  (forall self text, exists self', parse_text_data self text = Ok self')
  /\ (forall self pages, exists r, extract self pages = Ok r)
  /\ (forall st lines, valid st -> exists st', parse_lines st lines = Ok st')
  /\ (forall st raw,
        re_match header_re (strip raw) = None ->
        re_search earning_re (strip raw) = None ->
        re_search total_re (strip raw) = None ->
        parse_line st raw = Ok st)
  /\ (forall path text,
        Forall (fun raw => re_match header_re (strip raw) = None) (split_lines text) ->
        parse_text_data (init path) text = Ok (init path)).
Proof.
  split; [| split; [| split; [| split]]].
  - intros self text. rewrite parse_text_data_records. eauto.
  - intros self pages. unfold extract. rewrite extract_pages_apart. simpl. eauto.
  - intros st lines Hv. destruct (parse_lines_valid lines st Hv) as (st' & H & _). eauto.
  - intros st raw Hh He Ht. unfold parse_line, open_employee.
    rewrite Hh. simpl. rewrite He. unfold total_branch. rewrite Ht.
    destruct (current_employee st); [| reflexivity].
    destruct (contains (str_of "Total Earnings:") (strip raw)); reflexivity.
  - intros path text Hall. rewrite parse_text_data_records. simpl.
    rewrite records_from_body; [reflexivity |].
    unfold no_header. eapply Forall_impl; [exact Hall |].
    intros raw H. unfold is_header. simpl in H. rewrite H. reflexivity.
Qed.

Lemma parse_never_raises_witness :
  (exists st', parse_lines smith_open [earning_line; str_of "Page 1 of 3"] = Ok st')
  /\ parse_line fresh (str_of "Page 1 of 3") = Ok fresh
  /\ parse_text_data (init (str_of "invoice.pdf")) (str_of "Payroll" ++ LF ++ str_of "Page 1 of 3")
     = Ok (init (str_of "invoice.pdf")).
Proof.
  split; [| split].
  - apply (proj1 (proj2 (proj2 parse_never_raises))).
    unfold valid. simpl. eauto.
  - apply (proj1 (proj2 (proj2 (proj2 parse_never_raises)))); by_evaluation.
  - apply (proj2 (proj2 (proj2 (proj2 parse_never_raises)))).
    replace (split_lines _) with [str_of "Payroll"; str_of "Page 1 of 3"]
      by (vm_compute; reflexivity).
    by_evaluation.
Defined.

(** ** Separate instances *)

(** C9: parsing a fixed text on two new instances yields results equal in
    every field: the data of a new instance after the parse is a function
    of the text alone, whatever the paths and whatever instances exist
    already; the second parse leaves the result of the first as it was. *)
Theorem parse_is_deterministic :
  (forall path1 path2 text,
     exists d,
       parse_text_data (init path1) text = Ok {| pdf_path := path1; data := d |} /\
       parse_text_data (init path2) text = Ok {| pdf_path := path2; data := d |})
  /\ (forall (objs : instances) path1 path2 text,
        exists objs2 objs4 d,
          let '(a, objs1) := construct path1 objs in
          call_parse_text_data a text objs1 = Ok objs2 /\
          let '(b, objs3) := construct path2 objs2 in
          call_parse_text_data b text objs3 = Ok objs4 /\
          a <> b /\
          data_of a objs2 = Some d /\
          data_of b objs4 = Some d /\
          data_of a objs4 = Some d /\
          forall c, (c < length objs)%nat -> objs4 !! c = objs !! c).
Proof.
  split.
  - intros path1 path2 text. rewrite !parse_text_data_records. simpl. eauto.
  - intros objs path1 path2 text.
    pose (d := {| employees := [] ++ records_from None (split_lines text) |}).
    pose (x1 := {| pdf_path := path1; data := d |}).
    pose (x2 := {| pdf_path := path2; data := d |}).
    assert (H1 : call_parse_text_data (length objs) text (objs ++ [init path1])
                 = Ok (objs ++ [x1])).
    { unfold call_parse_text_data.
      rewrite list_lookup_middle by reflexivity.
      rewrite parse_text_data_records. simpl.
      rewrite insert_app_r_alt by lia. rewrite Nat.sub_diag. reflexivity. }
    assert (H2 : call_parse_text_data (length (objs ++ [x1])) text
                   ((objs ++ [x1]) ++ [init path2])
                 = Ok ((objs ++ [x1]) ++ [x2])).
    { unfold call_parse_text_data.
      rewrite list_lookup_middle by reflexivity.
      rewrite parse_text_data_records. simpl.
      rewrite insert_app_r_alt by lia. rewrite Nat.sub_diag. reflexivity. }
    exists (objs ++ [x1]), ((objs ++ [x1]) ++ [x2]), d.
    unfold construct. split; [exact H1 |]. split; [exact H2 |].
    unfold data_of. rewrite length_app. simpl.
    split; [lia |].
    split; [rewrite list_lookup_middle by reflexivity; reflexivity |].
    split.
    { rewrite list_lookup_middle by (rewrite length_app; reflexivity). reflexivity. }
    split.
    { rewrite lookup_app_l by (rewrite length_app; simpl; lia).
      rewrite list_lookup_middle by reflexivity. reflexivity. }
    intros c Hc.
    rewrite lookup_app_l by (rewrite length_app; simpl; lia).
    apply lookup_app_l. exact Hc.
Qed.

Lemma parse_is_deterministic_witness :
  exists objs2 objs4 d,
    let '(a, objs1) := construct (str_of "a.pdf") [init (str_of "old.pdf")] in
    call_parse_text_data a scenario_1_text objs1 = Ok objs2 /\
    let '(b, objs3) := construct (str_of "b.pdf") objs2 in
    call_parse_text_data b scenario_1_text objs3 = Ok objs4 /\
    a <> b /\
    data_of a objs2 = Some d /\
    data_of b objs4 = Some d /\
    data_of a objs4 = Some d /\
    forall c, (c < length [init (str_of "old.pdf")])%nat ->
              objs4 !! c = [init (str_of "old.pdf")] !! c.
Proof.
  exact (proj2 parse_is_deterministic [init (str_of "old.pdf")]
           (str_of "a.pdf") (str_of "b.pdf") scenario_1_text).
Defined.

(** ** The last total line *)

(** C10 (amended): while an employee is current and no header line comes,
    the employee's total_hours and total_amount are those of the last line
    that sets totals, that is the last line that has no earnings row, holds
    the marker and matches the total pattern; totals set by earlier lines
    are replaced. *)
Theorem last_total_line_wins (st : loop_state) (i : nat) (e : employee)
    (s1 s2 : list str) (t : str) (m : groups) (g1 g2 : str) :
  current_employee st = Some i ->
  st_employees st !! i = Some e ->
  no_header (s1 ++ t :: s2) ->
  re_search earning_re (strip t) = None ->
  contains TOTAL_MARKER (strip t) = true ->
  re_search total_re (strip t) = Some m ->
  group m 1 = Ok g1 -> group m 2 = Ok g2 ->
  Forall (fun raw => totals_of raw = None) s2 ->
  exists st' e',
    parse_lines st (s1 ++ t :: s2) = Ok st' /\
    current_employee st' = Some i /\ st_employees st' !! i = Some e' /\
    total_hours e' = Some (numeric_cleaning (Some g1)) /\
    total_amount e' = Some (numeric_cleaning (Some g2)) /\
    clean_currency (Some g1) = Ok (numeric_cleaning (Some g1)) /\
    clean_currency (Some g2) = Ok (numeric_cleaning (Some g2)).
Proof.
  intros Hcur He Hn Hearn Hc Hm H1 H2 Hs2.
  pose proof (totals_of_matched t m g1 g2 Hearn Hc Hm H1 H2) as Ht.
  rewrite (parse_lines_current _ Hn st i e Hcur He).
  pose proof (fold_absorb_totals_last s1 s2 t _ _ Ht Hs2 e) as Htot.
  unfold totals in Htot. injection Htot as Hh Ha.
  eexists _, _. split; [reflexivity |]. simpl.
  split; [reflexivity |].
  split; [apply list_lookup_insert_eq; apply lookup_lt_Some in He; exact He |].
  split; [exact Hh |]. split; [exact Ha |].
  split; apply clean_currency_refines.
Qed.

Lemma last_total_line_wins_witness :
  exists st' e',
    parse_lines smith_open
      ([str_of "Total Earnings: 1.00 2.00"] ++ str_of "Total Earnings: 3.00 4.00" :: [str_of "Net pay"])
      = Ok st' /\
    current_employee st' = Some O /\ st_employees st' !! O = Some e' /\
    total_hours e' = Some (numeric_cleaning (Some (str_of "3.00"))) /\
    total_amount e' = Some (numeric_cleaning (Some (str_of "4.00"))) /\
    clean_currency (Some (str_of "3.00")) = Ok (numeric_cleaning (Some (str_of "3.00"))) /\
    clean_currency (Some (str_of "4.00")) = Ok (numeric_cleaning (Some (str_of "4.00"))).
Proof.
  apply (last_total_line_wins smith_open O smith
           [str_of "Total Earnings: 1.00 2.00"] [str_of "Net pay"]
           (str_of "Total Earnings: 3.00 4.00")
           [(2%nat, str_of "4.00"); (1%nat, str_of "3.00")]);
    by_evaluation.
Defined.

(** C10, as stated, fails: the last line that holds the marker and matches
    the total pattern is also an earnings row, which is appended and ends
    the line, so the totals of the line before it stay. *)
Lemma last_total_line_is_earning_row :
  contains TOTAL_MARKER (strip total_and_earning_line) = true
  /\ re_search total_re (strip total_and_earning_line)
     = Some [(2%nat, str_of "4.00"); (1%nat, str_of "3.00")]
  /\ parse_lines fresh
       [smith_header; str_of "Total Earnings: 1.00 2.00"; total_and_earning_line]
     = Ok {| st_employees :=
               [ {| employee_id := str_of "1001";
                    employee_name := str_of "Smith, John";
                    earnings :=
                      [ {| type := str_of "Hourly"; date := str_of "01/02/25";
                           rate := Some (float_of_int 10);
                           hours := Some (float_of_int 5);
                           amount := Some (float_of_int 50) |} ];
                    total_hours := Some (Some (float_of_int 1));
                    total_amount := Some (Some (float_of_int 2)) |} ];
             current_employee := Some O |}.
Proof. repeat split; vm_compute; reflexivity. Qed.

(** ** Two header lines in a row *)

(** X1: two header lines in a row, the first with no earnings row and no
    totals on it, yield two employees, the first with an empty earnings
    list and no totals. *)
Theorem two_headers_in_a_row (h1 h2 id1 name1 id2 name2 : str) :
  header_of h1 = Some (id1, name1) ->
  header_of h2 = Some (id2, name2) ->
  entry_of h1 = None -> totals_of h1 = None ->
  exists st r2,
    parse_lines fresh [h1; h2] = Ok st /\
    st_employees st =
      [ {| employee_id := id1; employee_name := name1; earnings := [];
           total_hours := None; total_amount := None |}; r2 ] /\
    employee_id r2 = id2 /\ employee_name r2 = name2 /\
    current_employee st = Some 1%nat.
Proof.
  intros H1 H2 He Ht. simpl.
  rewrite (parse_line_header fresh h1 id1 name1 H1). simpl.
  rewrite (parse_line_header _ h2 id2 name2 H2). simpl.
  eexists _, _. split; [reflexivity |]. simpl.
  split; [| split; [| split]].
  - unfold absorb at 1. rewrite He, Ht. reflexivity.
  - apply absorb_identity.
  - apply absorb_identity.
  - reflexivity.
Qed.

Lemma two_headers_in_a_row_witness :
  exists st r2,
    parse_lines fresh [smith_header; str_of "2002 - Doe, Jane"] = Ok st /\
    st_employees st =
      [ {| employee_id := str_of "1001"; employee_name := str_of "Smith, John";
           earnings := []; total_hours := None; total_amount := None |}; r2 ] /\
    employee_id r2 = str_of "2002" /\ employee_name r2 = str_of "Doe, Jane" /\
    current_employee st = Some 1%nat.
Proof.
  apply (two_headers_in_a_row smith_header (str_of "2002 - Doe, Jane")); by_evaluation.
Defined.

(** * Further properties *)

(** ** The float of a numeric token *)

Lemma decimal_in_range (zeros : list Z) (c : char) (d : Z) :
  decimal_in zeros c = Some d -> 0 <= d < 10.
Proof.
  induction zeros as [| z zs IH]; simpl; [discriminate |].
  destruct ((z <=? c) && (c <? z + 10)) eqn:E; [| exact IH].
  intros H. injection H as <-.
  apply andb_prop in E. destruct E as [E1 E2].
  apply Z.leb_le in E1. apply Z.ltb_lt in E2. lia.
Qed.

Lemma digits_value_nonneg (s : str) :
  forall acc m, 0 <= acc -> digits_value acc s = Some m -> 0 <= m.
Proof.
  induction s as [| c s IH]; simpl; intros acc m Hacc H.
  - injection H as <-. exact Hacc.
  - destruct (to_decimal c) as [d |] eqn:Hd; [| discriminate].
    apply decimal_in_range in Hd. apply (IH (10 * acc + d)); [lia | exact H].
Qed.

Lemma digits_value_run (s : str) :
  run is_digit s -> forall acc, exists m, digits_value acc s = Some m.
Proof.
  induction 1 as [| c s Hc Hs IH]; intros acc; simpl; [eauto |].
  unfold is_digit in Hc. destruct (to_decimal c) as [d |]; [| discriminate].
  apply IH.
Qed.

Lemma digits_value_only_digits (s : str) :
  forall acc m, digits_value acc s = Some m -> run is_digit s.
Proof.
  induction s as [| c s IH]; simpl; intros acc m H; [constructor |].
  destruct (to_decimal c) as [d |] eqn:Hd; [| discriminate].
  constructor; [unfold is_digit; rewrite Hd; reflexivity | exact (IH _ _ H)].
Qed.

(** Shifting to the right keeps a mantissa that is not negative so. *)
Lemma shr_1_nonneg (mrs : shr_record) : 0 <= shr_m mrs -> 0 <= shr_m (shr_1 mrs).
Proof.
  destruct mrs as [m r s]. simpl. intros H.
  destruct m as [| [p | p |] | p]; simpl; lia.
Qed.

Lemma iter_shr_1_nonneg (p : positive) :
  forall mrs, 0 <= shr_m mrs -> 0 <= shr_m (SpecFloat.iter_pos shr_1 p mrs).
Proof.
  induction p as [p IH | p IH |]; intros mrs H; simpl.
  - apply IH, IH, shr_1_nonneg, H.
  - apply IH, IH, H.
  - apply shr_1_nonneg, H.
Qed.

Lemma shr_fexp_nonneg (m e : Z) (l : location) :
  0 <= m -> 0 <= shr_m (fst (shr_fexp prec emax m e l)).
Proof.
  intros H. unfold shr_fexp, shr.
  assert (H0 : 0 <= shr_m (shr_record_of_loc m l)).
  { destruct l as [| []]; exact H. }
  destruct (fexp prec emax (Zdigits2 m + e) - e); simpl; try exact H0.
  apply iter_shr_1_nonneg, H0.
Qed.

Lemma round_nearest_even_nonneg (m : Z) (l : location) :
  0 <= m -> 0 <= round_nearest_even m l.
Proof.
  intros H. unfold round_nearest_even.
  destruct l as [| []]; try destruct (Z.even m); lia.
Qed.

Lemma binary_round_aux_unsigned (m e : Z) (l : location) :
  0 <= m -> unsigned (binary_round_aux prec emax false m e l).
Proof.
  intros H. unfold binary_round_aux.
  pose proof (shr_fexp_nonneg m e l H) as H1.
  destruct (shr_fexp prec emax m e l) as [mrs' e'] eqn:E1. simpl in H1.
  pose proof (shr_fexp_nonneg
                (round_nearest_even (shr_m mrs') (loc_of_shr_record mrs')) e' loc_Exact
                (round_nearest_even_nonneg _ _ H1)) as H2.
  destruct (shr_fexp prec emax _ e' loc_Exact) as [mrs'' e''] eqn:E2. simpl in H2.
  destruct (shr_m mrs'') as [| p | p]; simpl.
  - exact I.
  - destruct (e'' <=? emax - prec); exact I.
  - lia.
Qed.

Lemma float_of_decimal_unsigned (m k : Z) :
  0 <= m -> unsigned (float_of_decimal false m k).
Proof.
  intros H. unfold float_of_decimal.
  destruct m as [| p | p]; [exact I | | lia].
  unfold SFdiv_core_binary.
  set (s := 0 - 0 - _).
  set (m' := match s with Z0 => Zpos p | Zpos _ => Z.shiftl (Zpos p) s | Zneg _ => 0 end).
  assert (Hm' : 0 <= m').
  { unfold m'. destruct s; try lia. apply Z.shiftl_nonneg. lia. }
  assert (Hq : 0 <= fst (Z.div_eucl m' (10 ^ k))).
  { change (fst (Z.div_eucl m' (10 ^ k))) with (m' / 10 ^ k).
    pose proof (Z.pow_nonneg 10 k ltac:(lia)) as Hp.
    destruct (Z.eq_dec (10 ^ k) 0) as [E | E].
    - rewrite E, Z.div_0_r. lia.
    - apply Z.div_pos; lia. }
  destruct (Z.div_eucl m' (10 ^ k)) as [q r]. simpl in Hq.
  apply binary_round_aux_unsigned, Hq.
Qed.

Lemma numeric_is_kept (c : char) : is_numeric c = true -> is_kept c = true.
Proof. unfold is_numeric, is_kept. intros ->. reflexivity. Qed.

Lemma filter_kept_numeric (a : str) : run is_numeric a -> List.filter is_kept a = a.
Proof.
  induction 1 as [| c a Hc Ha IH]; simpl; [reflexivity |].
  rewrite (numeric_is_kept c Hc), IH. reflexivity.
Qed.

Lemma digit_not_point (c : char) : is_digit c = true -> (c =? 46) = false.
Proof.
  intros H. destruct (c =? 46) eqn:E; [| reflexivity].
  apply Z.eqb_eq in E. subst c. discriminate H.
Qed.

Lemma numeric_not_minus (c : char) : is_numeric c = true -> (c =? 45) = false.
Proof.
  intros H. destruct (c =? 45) eqn:E; [| reflexivity].
  apply Z.eqb_eq in E. subst c. discriminate H.
Qed.

Lemma numeric_no_point_digits (s : str) :
  run is_numeric s -> points s = O -> run is_digit s.
Proof.
  unfold points. induction 1 as [| c s Hc Hs IH]; simpl; intros Hp; [constructor |].
  destruct (c =? 46) eqn:E; [discriminate |].
  constructor; [| exact (IH Hp)].
  unfold is_numeric in Hc. rewrite E, orb_false_r in Hc. exact Hc.
Qed.

Lemma digits_no_point (s : str) : run is_digit s -> points s = O.
Proof.
  unfold points. induction 1 as [| c s Hc Hs IH]; simpl; [reflexivity |].
  rewrite (digit_not_point c Hc). exact IH.
Qed.

(** [split_point] cuts at the first point: no point before it. *)
Lemma split_point_spec (s : str) :
  match split_point s with
  | (ip, None) => ip = s /\ points s = O
  | (ip, Some rest) => s = ip ++ 46 :: rest /\ points ip = O
  end.
Proof.
  unfold points. induction s as [| c s IH]; cbn -[Z.eqb]; [split; reflexivity |].
  destruct (c =? 46) eqn:E.
  - apply Z.eqb_eq in E. subst c. split; reflexivity.
  - destruct (split_point s) as [ip [rest |]]; cbn -[Z.eqb]; try rewrite E.
    + destruct IH as [-> Hp]. split; [reflexivity | exact Hp].
    + destruct IH as [-> Hp]. split; [reflexivity | exact Hp].
Qed.

Lemma points_app (s t : str) : points (s ++ t) = (points s + points t)%nat.
Proof. unfold points. rewrite List.filter_app, length_app. reflexivity. Qed.

(** The float of a numeric token: there is one unless the token has two
    points or more or is a lone point, and it is unsigned. *)
Lemma float_of_numeric_token (a : str) :
  token is_numeric a ->
  match float_of_str a with
  | Ok f => (points a <= 1)%nat /\ a <> str_of "." /\ unsigned f
  | Raise _ => (2 <= points a)%nat \/ a = str_of "."
  end.
Proof.
  intros [Hrun Hlen]. unfold float_of_str.
  destruct a as [| c a]; [simpl in Hlen; lia |].
  assert (Hc : is_numeric c = true) by (inversion Hrun; assumption).
  rewrite (numeric_not_minus c Hc).
  pose proof (split_point_spec (c :: a)) as Hsp.
  destruct (split_point (c :: a)) as [ip [rest |]].
  - destruct Hsp as [Heq Hip]. rewrite Heq in Hrun |- *.
    unfold run in Hrun. apply Forall_app in Hrun. destruct Hrun as [Hrip Hrrest].
    apply Forall_cons in Hrrest. destruct Hrrest as [_ Hrrest].
    pose proof (numeric_no_point_digits ip Hrip Hip) as Hdip.
    assert (Hpts : points (ip ++ 46 :: rest) = S (points rest)).
    { rewrite points_app, Hip. reflexivity. }
    rewrite Hpts.
    destruct (digits_value 0 (ip ++ rest)) as [m |] eqn:Hv.
    + pose proof (digits_value_only_digits _ _ _ Hv) as Hd.
      unfold run in Hd. apply Forall_app in Hd. destruct Hd as [_ Hdrest].
      rewrite (digits_no_point rest Hdrest).
      destruct ip as [| i ip]; [destruct rest as [| r rest] |].
      * right. reflexivity.
      * split; [lia |]. split;
          [intros E; apply (f_equal length) in E; rewrite ?length_app in E;
           simpl in E; lia |].
        apply float_of_decimal_unsigned. eapply digits_value_nonneg; [| exact Hv]; lia.
      * split; [lia |]. split;
          [intros E; apply (f_equal length) in E; rewrite ?length_app in E;
           simpl in E; lia |].
        apply float_of_decimal_unsigned. eapply digits_value_nonneg; [| exact Hv]; lia.
    + assert (Hpr : points rest <> O).
      { intros Hz. pose proof (numeric_no_point_digits rest Hrrest Hz) as Hdr.
        assert (Hall : run is_digit (ip ++ rest)) by (apply Forall_app; split; assumption).
        destruct (digits_value_run _ Hall 0) as [m Hm]. congruence. }
      destruct ip as [| i ip]; [destruct rest as [| r rest] |]; left; lia.
  - destruct Hsp as [Heq Hp]. rewrite Heq. rewrite Hp. rewrite app_nil_r.
    pose proof (numeric_no_point_digits _ Hrun Hp) as Hd.
    destruct (digits_value_run _ Hd 0) as [m Hm]. rewrite Hm.
    split; [lia |]. split.
    + intros E. rewrite E in Hp. discriminate Hp.
    + apply float_of_decimal_unsigned. eapply digits_value_nonneg; [| exact Hm]; lia.
Qed.

Lemma numeric_cleaning_token (a : str) :
  token is_numeric a ->
  unsigned_field (numeric_cleaning (Some a)) /\
  (numeric_cleaning (Some a) = None <-> (2 <= points a)%nat \/ a = str_of ".").
Proof.
  intros Ha. pose proof (float_of_numeric_token a Ha) as Hf.
  unfold numeric_cleaning. destruct Ha as [Hrun Hlen].
  rewrite (filter_kept_numeric a Hrun).
  destruct a as [| c a]; [simpl in Hlen; lia |].
  destruct (float_of_str (c :: a)) as [f | e].
  - destruct Hf as (Hp & Hne & Hu). split; [exact Hu |].
    split; [discriminate |]. intros [H | H]; [lia | contradiction].
  - split; [exact I |]. split; [intros _; exact Hf | reflexivity].
Qed.

(** ** The forms of the output *)

Lemma letter_not_space (c : char) : is_letter c = true -> is_space c = false.
Proof.
  intros H. destruct (is_space c) eqn:E; [| reflexivity].
  apply is_space_cases in E. simpl in E.
  repeat (destruct E as [<- | E]; [discriminate H |]). destruct E.
Qed.

Lemma lstrip_stopped (s : str) : stops is_space s -> lstrip s = s.
Proof. destruct s as [| c s]; simpl; [reflexivity |]. intros ->. reflexivity. Qed.

Lemma strip_stopped (s : str) :
  stops is_space s -> stops is_space (rev s) -> strip s = s.
Proof.
  intros H1 H2. unfold strip, rstrip.
  rewrite (lstrip_stopped s H1), (lstrip_stopped _ H2). apply rev_involutive.
Qed.

Lemma token_rev (p : char -> bool) (t : str) : token p t -> token p (rev t).
Proof.
  intros [Hr Hl]. split; [apply Forall_rev, Hr | rewrite length_rev; exact Hl].
Qed.

(** [.strip()] leaves a name of the form of the pattern as it is. *)
Lemma strip_name (name : str) : name_form name -> strip name = name.
Proof.
  intros (n1 & w & n2 & -> & H1 & Hw & H2). apply strip_stopped.
  - apply (token_stops is_space is_letter); [exact letter_not_space | exact H1].
  - rewrite !rev_app_distr, <- !app_assoc.
    apply (token_stops is_space is_letter); [exact letter_not_space |].
    apply token_rev, H2.
Qed.

Lemma header_of_form (raw emp_id emp_name : str) :
  header_of raw = Some (emp_id, emp_name) ->
  token is_digit emp_id /\ name_form emp_name.
Proof.
  unfold header_of. intros H.
  destruct (re_match header_re (strip raw)) as [g |] eqn:Hg; [| discriminate].
  apply match_at_sound in Hg. destruct Hg as (t & s' & _ & Hm).
  unfold header_re, plus, star in Hm. simpl in Hm. break.
  simpl in H.
  match type of H with
  | Some (_, strip ?n) = _ =>
      assert (Hn : name_form n)
        by (eexists _, _, _; split; [reflexivity |];
            unfold token; repeat split; assumption)
  end.
  rewrite (strip_name _ Hn) in H. injection H as <- <-.
  split; [split; assumption | exact Hn].
Qed.

Lemma entry_of_form (raw : str) (x : earning) :
  entry_of raw = Some x -> entry_form x.
Proof.
  unfold entry_of. intros H.
  destruct (re_search earning_re (strip raw)) as [m |] eqn:Hm; [| discriminate].
  apply search_shape in Hm. destruct Hm as (pre & suf & _ & Hm).
  apply earning_of_match_row in Hm.
  destruct Hm as (d & a & b & c & row & post & _ & Hrow & Hx).
  rewrite Hx in H. injection H as <-.
  destruct Hrow as (w1 & w2 & w3 & w4 & _ & _ & Hd & _ & Ha & _ & Hb & _ & Hc).
  unfold entry_form. simpl.
  split; [reflexivity |]. split; [exact Hd |].
  split; [apply numeric_cleaning_token, Ha |].
  split; [apply numeric_cleaning_token, Hb | apply numeric_cleaning_token, Hc].
Qed.

Lemma totals_of_form (raw : str) (h a : option float) :
  totals_of raw = Some (h, a) -> unsigned_field h /\ unsigned_field a.
Proof.
  unfold totals_of. intros H.
  destruct (entry_of raw); [discriminate |].
  destruct (contains (str_of "Total Earnings:") (strip raw)); [| discriminate].
  destruct (re_search total_re (strip raw)) as [m |] eqn:Hm; [| discriminate].
  apply search_shape in Hm. destruct Hm as (pre & suf & _ & Hm).
  apply total_shape in Hm. destruct Hm as (t1 & t2 & -> & H1 & H2).
  simpl in H. rewrite !clean_currency_refines in H. simpl in H.
  injection H as <- <-.
  split; apply numeric_cleaning_token; assumption.
Qed.

Lemma new_employee_form (raw emp_id emp_name : str) :
  header_of raw = Some (emp_id, emp_name) ->
  employee_form (new_employee emp_id emp_name).
Proof.
  intros H. apply header_of_form in H. destruct H as [Hi Hn].
  unfold employee_form, totals_form. simpl.
  split; [exact Hi |]. split; [exact Hn |]. split; [constructor | exact I].
Qed.

Lemma absorb_form (e : employee) (raw : str) :
  employee_form e -> employee_form (absorb e raw).
Proof.
  intros (Hi & Hn & He & Ht). unfold absorb.
  destruct (entry_of raw) as [x |] eqn:Hx.
  - unfold employee_form, totals_form in *. simpl.
    split; [exact Hi |]. split; [exact Hn |]. split; [| exact Ht].
    apply Forall_app. split; [exact He |].
    constructor; [exact (entry_of_form raw x Hx) | constructor].
  - destruct (totals_of raw) as [[h a] |] eqn:Hh.
    + unfold employee_form, totals_form. simpl.
      split; [exact Hi |]. split; [exact Hn |]. split; [exact He |].
      exact (totals_of_form raw h a Hh).
    + exact (conj Hi (conj Hn (conj He Ht))).
Qed.

(** What the header branch establishes and every line keeps holds of every
    employee of the fold. *)
Lemma records_from_invariant (P : employee -> Prop) :
  (forall raw emp_id emp_name,
     header_of raw = Some (emp_id, emp_name) -> P (new_employee emp_id emp_name)) ->
  (forall e raw, P e -> P (absorb e raw)) ->
  forall lines cur,
    (forall e, cur = Some e -> P e) ->
    Forall P (records_from cur lines).
Proof.
  intros Hnew Hkeep. induction lines as [| raw rest IH]; intros cur Hcur; simpl.
  - destruct cur as [e |]; simpl; [| constructor].
    constructor; [apply Hcur; reflexivity | constructor].
  - destruct (header_of raw) as [[emp_id emp_name] |] eqn:Hh.
    + apply Forall_app. split.
      * destruct cur as [e |]; simpl; [| constructor].
        constructor; [apply Hcur; reflexivity | constructor].
      * apply IH. intros e He. injection He as <-.
        apply Hkeep, (Hnew raw), Hh.
    + apply IH. intros e He. destruct cur as [e0 |]; [| discriminate].
      simpl in He. injection He as <-. apply Hkeep, Hcur. reflexivity.
Qed.

Lemma page_employees_form (page : option str) :
  Forall employee_form (page_employees page).
Proof.
  destruct page as [text |]; [| constructor].
  rewrite page_employees_records.
  apply records_from_invariant.
  - exact new_employee_form.
  - exact absorb_form.
  - discriminate.
Qed.

Lemma extract_form (path : str) (pages : pdf) :
  exists self' d,
    extract (init path) pages = Ok (self', d) /\
    Forall employee_form (employees d).
Proof.
  unfold extract. rewrite extract_pages_apart. simpl.
  eexists _, _. split; [reflexivity |]. simpl.
  induction pages as [| page pages IH]; simpl; [constructor |].
  apply Forall_app. split; [apply page_employees_form | exact IH].
Qed.

(** X2: every employee [extract] returns for a new instance has an
    identifier of one decimal digit or more and a name made of letters, a
    comma, white space if any, and letters; the [.strip()] of the name
    changes nothing. *)
Theorem employees_have_id_and_name (path : str) (pages : pdf) :
  exists self' d,
    extract (init path) pages = Ok (self', d) /\
    Forall (fun e => token is_digit (employee_id e) /\
                     name_form (employee_name e) /\
                     strip (employee_name e) = employee_name e)
           (employees d).
Proof.
  destruct (extract_form path pages) as (self' & d & Hx & Hf).
  exists self', d. split; [exact Hx |].
  eapply Forall_impl; [exact Hf |].
  intros e (Hi & Hn & _). exact (conj Hi (conj Hn (strip_name _ Hn))).
Qed.

(** X3: every earnings entry [extract] returns has the type "Hourly", a
    date of two digits, a slash, two digits, a slash and two digits, and a
    rate, hours and amount that are each [None] or a float that is zero,
    positive or plus infinity: never negative, never a NaN. *)
Theorem earnings_are_unsigned (path : str) (pages : pdf) :
  exists self' d,
    extract (init path) pages = Ok (self', d) /\
    Forall (fun e => Forall entry_form (earnings e)) (employees d).
Proof.
  destruct (extract_form path pages) as (self' & d & Hx & Hf).
  exists self', d. split; [exact Hx |].
  eapply Forall_impl; [exact Hf |].
  intros e (_ & _ & He & _). exact He.
Qed.

(** X4: every employee [extract] returns has both total keys or neither,
    and a total that is there is [None] or an unsigned float. *)
Theorem totals_come_together (path : str) (pages : pdf) :
  exists self' d,
    extract (init path) pages = Ok (self', d) /\
    Forall totals_form (employees d).
Proof.
  destruct (extract_form path pages) as (self' & d & Hx & Hf).
  exists self', d. split; [exact Hx |].
  eapply Forall_impl; [exact Hf |].
  intros e (_ & _ & _ & Ht). exact Ht.
Qed.

(** X5: a numeric token of a matched row, digits and points, cleans to
    [None] exactly when it has two points or more or is a lone point. *)
Theorem numeric_token_null_iff (a : str) :
  token is_numeric a ->
  (clean_currency (Some a) = Ok None <-> (2 <= points a)%nat \/ a = str_of ".").
Proof.
  intros Ha. rewrite clean_currency_refines.
  destruct (numeric_cleaning_token a Ha) as [_ [H1 H2]].
  split.
  - intros H. injection H as H. exact (H1 H).
  - intros H. rewrite (H2 H). reflexivity.
Qed.

Lemma numeric_token_null_iff_witness :
  clean_currency (Some (str_of "1.2.3")) = Ok None <->
  (2 <= points (str_of "1.2.3"))%nat \/ str_of "1.2.3" = str_of ".".
Proof.
  apply (numeric_token_null_iff (str_of "1.2.3")).
  split; [repeat (constructor; [vm_compute; reflexivity |]); constructor | simpl; lia].
Defined.

(** X6: [extract] adds to what the instance holds: a second call on the
    same instance and document leaves every employee twice in the list. *)
Theorem extract_twice_duplicates (self : DataExtractor) (pages : pdf) :
  exists self1 d1 self2 d2,
    extract self pages = Ok (self1, d1) /\
    extract self1 pages = Ok (self2, d2) /\
    employees d1 = employees (data self) ++ concat (map page_employees pages) /\
    employees d2 = employees d1 ++ concat (map page_employees pages).
Proof.
  unfold extract. rewrite extract_pages_apart. simpl.
  eexists _, _. rewrite extract_pages_apart. simpl.
  eexists _, _. repeat split.
Qed.

(** ** Total lines and the marker *)

Lemma contains_here (needle s : str) :
  starts_with needle s = true -> contains needle s = true.
Proof. intros H. destruct s; simpl; rewrite H; reflexivity. Qed.

Lemma contains_later (needle pre s : str) :
  contains needle s = true -> contains needle (pre ++ s) = true.
Proof.
  intros H. induction pre as [| c pre IH]; simpl; [exact H |].
  rewrite IH. apply orb_true_r.
Qed.

Lemma total_match_marker (line : str) (m : groups) :
  re_search total_re line = Some m -> contains TOTAL_MARKER line = true.
Proof.
  intros H. apply search_shape in H. destruct H as (pre & suf & -> & H).
  apply match_at_sound in H. destruct H as (t & post & -> & Hm).
  unfold total_re, plus in Hm. simpl in Hm. break.
  apply contains_later, contains_here.
  rewrite <- !app_assoc. apply starts_with_app.
Qed.

(** X7: when the total pattern matches a line, the line holds the marker
    "Total Earnings:", so the test for the marker on line 80 never decides;
    and the two tokens stand right after the marker, with white space only
    before and between them. *)
Theorem total_match_follows_marker (line : str) (m : groups) :
  re_search total_re line = Some m ->
  contains TOTAL_MARKER line = true /\
  exists pre w1 a w2 b post,
    line = pre ++ TOTAL_MARKER ++ w1 ++ a ++ w2 ++ b ++ post /\
    token is_space w1 /\ token is_numeric a /\
    token is_space w2 /\ token is_numeric b /\
    group m 1 = Ok a /\ group m 2 = Ok b.
Proof.
  intros H. apply search_shape in H. destruct H as (pre & suf & -> & H).
  apply match_at_sound in H. destruct H as (t & post & -> & Hm).
  unfold total_re, plus in Hm. simpl in Hm. break.
  split.
  - apply contains_later, contains_here.
    rewrite <- !app_assoc. apply starts_with_app.
  - match goal with
    | |- context [pre ++ (_ ++ ?w1 ++ ?a ++ ?w2 ++ ?b) ++ post] =>
        exists pre, w1, a, w2, b, post
    end.
    split.
    + unfold TOTAL_MARKER. rewrite <- !app_assoc. reflexivity.
    + unfold token. repeat split; assumption.
Qed.

Lemma total_match_follows_marker_witness :
  contains TOTAL_MARKER (str_of "Sub Total Earnings:  5.00 50.00 USD") = true /\
  exists pre w1 a w2 b post,
    str_of "Sub Total Earnings:  5.00 50.00 USD"
      = pre ++ TOTAL_MARKER ++ w1 ++ a ++ w2 ++ b ++ post /\
    token is_space w1 /\ token is_numeric a /\
    token is_space w2 /\ token is_numeric b /\
    group [(2%nat, str_of "50.00"); (1%nat, str_of "5.00")] 1 = Ok a /\
    group [(2%nat, str_of "50.00"); (1%nat, str_of "5.00")] 2 = Ok b.
Proof.
  apply (total_match_follows_marker (str_of "Sub Total Earnings:  5.00 50.00 USD")).
  vm_compute. reflexivity.
Defined.

(** ** Page breaks *)

Lemma split_lines_cons (text : str) : exists l ls, split_lines text = l :: ls.
Proof.
  induction text as [| c text (l & ls & IH)]; simpl; [eauto |].
  destruct (c =? 10); [eauto |]. rewrite IH. eauto.
Qed.

Lemma split_lines_app (t1 t2 : str) :
  split_lines (t1 ++ LF ++ t2) = split_lines t1 ++ split_lines t2.
Proof.
  induction t1 as [| c t1 IH].
  - reflexivity.
  - change ((c :: t1) ++ LF ++ t2) with (c :: (t1 ++ LF ++ t2)).
    cbn -[Z.eqb app]. rewrite IH.
    destruct (c =? 10); [reflexivity |].
    destruct (split_lines_cons t1) as (l & ls & ->). reflexivity.
Qed.

Lemma records_of_joined_pages (pages : list str) :
  Forall (fun page => header_led (split_lines page)) pages ->
  forall first,
    records_from None (split_lines (join_pages first pages)) =
      records_from None (split_lines first)
      ++ concat (map (fun page => records_from None (split_lines page)) pages).
Proof.
  unfold join_pages.
  induction 1 as [| page pages Hp Hps IH]; intros first;
    cbn [fold_left map concat].
  - symmetry. apply app_nil_r.
  - rewrite IH, split_lines_app, (records_from_app _ _ Hp), <- app_assoc.
    reflexivity.
Qed.

(** X8: a page break right before a header line loses nothing: when every
    page after the first begins with a header line, [extract] returns what
    it returns for the pages put together as one text. *)
Theorem page_break_before_header_is_harmless
    (self : DataExtractor) (first : str) (pages : list str) :
  Forall (fun page => header_led (split_lines page)) pages ->
  extract self (Some first :: map Some pages)
  = extract self [Some (join_pages first pages)].
Proof.
  intros H. unfold extract. rewrite !extract_pages_apart.
  cbn [map concat]. rewrite !page_employees_records, app_nil_r.
  rewrite (records_of_joined_pages pages H first).
  rewrite map_map.
  replace (map (fun x => page_employees (Some x)) pages)
    with (map (fun page => records_from None (split_lines page)) pages).
  - reflexivity.
  - apply map_ext. intros page. symmetry. apply page_employees_records.
Qed.

Lemma page_break_before_header_is_harmless_witness :
  extract (init (str_of "invoice.pdf"))
    (Some (smith_header ++ LF ++ earning_line)
     :: map Some [str_of "2002 - Doe, Jane" ++ LF ++ earning_line])
  = extract (init (str_of "invoice.pdf"))
      [Some (join_pages (smith_header ++ LF ++ earning_line)
               [str_of "2002 - Doe, Jane" ++ LF ++ earning_line])].
Proof.
  apply page_break_before_header_is_harmless.
  constructor; [vm_compute; reflexivity | constructor].
Defined.

(** X9: a page none of whose lines is a header line adds nothing, whatever
    earnings rows and total lines it holds: [extract] returns what it
    returns without the page. *)
Theorem page_without_header_adds_nothing
    (self : DataExtractor) (before after : pdf) (text : str) :
  no_header (split_lines text) ->
  extract self (before ++ Some text :: after) = extract self (before ++ after).
Proof.
  intros H. unfold extract. rewrite !extract_pages_apart.
  rewrite !map_app, !concat_app. cbn [map concat].
  rewrite page_employees_records, (records_from_body _ H). reflexivity.
Qed.

Lemma page_without_header_adds_nothing_witness :
  extract (init (str_of "invoice.pdf"))
    ([Some smith_header] ++ Some (earning_line ++ LF ++ str_of "Total Earnings: 5.00 50.00")
     :: [None])
  = extract (init (str_of "invoice.pdf")) ([Some smith_header] ++ [None]).
Proof.
  apply page_without_header_adds_nothing.
  replace (split_lines _) with [earning_line; str_of "Total Earnings: 5.00 50.00"]
    by (vm_compute; reflexivity).
  by_evaluation.
Defined.

(** ** Employees behind the current one *)

Lemma grows_refl (e : employee) : grows e e.
Proof. repeat split. exists []. symmetry. apply app_nil_r. Qed.

Lemma grows_trans (e1 e2 e3 : employee) : grows e1 e2 -> grows e2 e3 -> grows e1 e3.
Proof.
  intros (Hi & Hn & xs & Hx) (Hi' & Hn' & ys & Hy). repeat split; try congruence.
  exists (xs ++ ys). rewrite Hy, Hx, app_assoc. reflexivity.
Qed.

Lemma absorb_grows (e : employee) (raw : str) : grows e (absorb e raw).
Proof.
  destruct (absorb_identity e raw) as [Hi Hn]. repeat split; try assumption.
  exists (option_list (entry_of raw)). apply absorb_earnings.
Qed.

Lemma parse_line_grows (st : loop_state) (raw : str) :
  valid st ->
  exists st',
    parse_line st raw = Ok st' /\ valid st' /\
    (current_employee st' = current_employee st \/
     current_employee st' = Some (length (st_employees st))) /\
    forall j e, st_employees st !! j = Some e ->
      exists e', st_employees st' !! j = Some e' /\ grows e e' /\
                 (current_employee st' <> Some j -> e' = e).
Proof.
  intros Hv. destruct (is_header raw) eqn:Hh.
  - destruct (is_header_of raw Hh) as (emp_id & emp_name & Ho).
    rewrite (parse_line_header st raw emp_id emp_name Ho).
    eexists. split; [reflexivity |]. cbn [st_employees current_employee].
    split; [| split; [right; reflexivity |]].
    + unfold valid. cbn [st_employees current_employee].
      rewrite list_lookup_middle by reflexivity. eauto.
    + intros j e Hj. exists e. split; [| split].
      * rewrite lookup_app_l by (eapply lookup_lt_Some; exact Hj). exact Hj.
      * apply grows_refl.
      * reflexivity.
  - destruct (current_employee st) as [i |] eqn:Hc.
    + unfold valid in Hv. rewrite Hc in Hv. destruct Hv as [e0 He0].
      rewrite (parse_line_current st raw i e0 Hc He0 Hh).
      eexists. split; [reflexivity |]. cbn [st_employees current_employee].
      split; [| split; [left; reflexivity |]].
      * unfold valid. cbn [st_employees current_employee].
        rewrite list_lookup_insert_eq by (eapply lookup_lt_Some; exact He0). eauto.
      * intros j e Hj. destruct (decide (i = j)) as [<- | Hne].
        -- exists (absorb e0 raw). rewrite list_lookup_insert_eq
             by (eapply lookup_lt_Some; exact He0).
           assert (e = e0) as -> by congruence.
           split; [reflexivity | split; [apply absorb_grows | congruence]].
        -- exists e. rewrite list_lookup_insert_ne by exact Hne.
           split; [exact Hj | split; [apply grows_refl | reflexivity]].
    + rewrite (parse_line_no_current st raw Hc Hh).
      exists st. split; [reflexivity |]. split; [exact Hv |].
      split; [left; exact Hc |].
      intros j e Hj. exists e. split; [exact Hj | split; [apply grows_refl | reflexivity]].
Qed.

(** X10: the loop over the lines never removes an employee and never changes
    one that is not the current one at the start: its identifier, name,
    entries and totals stay as they are.  The current employee keeps its
    identifier and its name, and its entries only grow at the end. *)
Theorem employees_only_grow (lines : list str) :
  forall st, valid st ->
  exists st',
    parse_lines st lines = Ok st' /\
    forall j e, st_employees st !! j = Some e ->
      exists e', st_employees st' !! j = Some e' /\ grows e e' /\
                 (current_employee st <> Some j -> e' = e).
Proof.
  induction lines as [| raw lines IH]; intros st Hv; cbn [parse_lines].
  - exists st. split; [reflexivity |]. intros j e Hj. exists e.
    split; [exact Hj | split; [apply grows_refl | reflexivity]].
  - destruct (parse_line_grows st raw Hv) as (st1 & -> & Hv1 & Hc1 & H1).
    cbn [rbind]. destruct (IH st1 Hv1) as (st' & -> & H').
    exists st'. split; [reflexivity |]. intros j e Hj.
    destruct (H1 j e Hj) as (e1 & Hj1 & Hg1 & Hk1).
    destruct (H' j e1 Hj1) as (e' & Hj' & Hg' & Hk').
    exists e'. split; [exact Hj' | split; [eapply grows_trans; eassumption |]].
    intros Hne.
    assert (Hne1 : current_employee st1 <> Some j).
    { destruct Hc1 as [-> | ->]; [exact Hne |].
      apply lookup_lt_Some in Hj. intros E. injection E as E. lia. }
    rewrite (Hk' Hne1). exact (Hk1 Hne1).
Qed.

Lemma employees_only_grow_witness :
  exists st',
    parse_lines smith_open [earning_line; str_of "2002 - Doe, Jane"; earning_line] = Ok st' /\
    forall j e, st_employees smith_open !! j = Some e ->
      exists e', st_employees st' !! j = Some e' /\ grows e e' /\
                 (current_employee smith_open <> Some j -> e' = e).
Proof.
  apply (employees_only_grow _ smith_open).
  unfold valid. vm_compute. eauto.
Defined.

(** ** White space around a line *)

Lemma lstrip_run_app (w s : str) : run is_space w -> lstrip (w ++ s) = lstrip s.
Proof. induction 1 as [| c w Hc _ IH]; simpl; [| rewrite Hc]; auto. Qed.

Lemma lstrip_app (s w : str) :
  lstrip (s ++ w) = match lstrip s with [] => lstrip w | _ => lstrip s ++ w end.
Proof.
  induction s as [| c s IH]; simpl.
  - destruct (lstrip w); reflexivity.
  - destruct (is_space c); [exact IH | reflexivity].
Qed.

Lemma rstrip_app_run (s w : str) : run is_space w -> rstrip (s ++ w) = rstrip s.
Proof.
  intros H. unfold rstrip. rewrite rev_app_distr, lstrip_run_app; [reflexivity |].
  apply Forall_rev. exact H.
Qed.

Lemma strip_around (w1 s w2 : str) :
  run is_space w1 -> run is_space w2 -> strip (w1 ++ s ++ w2) = strip s.
Proof.
  intros H1 H2. unfold strip. rewrite (lstrip_run_app _ _ H1), lstrip_app.
  destruct (lstrip s) as [| c t] eqn:E.
  - rewrite <- (app_nil_r w2), (lstrip_run_app _ _ H2). reflexivity.
  - rewrite (rstrip_app_run _ _ H2). reflexivity.
Qed.

(** X11: white space around a line changes nothing: a line with white space
    before and after it is parsed as the line itself.  So a text with
    "\r\n" line ends, whose lines end with a carriage return after the split
    at "\n", is parsed as the text with "\n" line ends. *)
Theorem line_whitespace_is_ignored :
  (forall st w1 raw w2,
     run is_space w1 -> run is_space w2 ->
     parse_line st (w1 ++ raw ++ w2) = parse_line st raw)
  /\ (forall lines st,
        parse_lines st (map (fun l => l ++ [CR]) lines) = parse_lines st lines).
Proof.
  assert (Hl : forall st w1 raw w2,
             run is_space w1 -> run is_space w2 ->
             parse_line st (w1 ++ raw ++ w2) = parse_line st raw).
  { intros st w1 raw w2 H1 H2. unfold parse_line.
    rewrite (strip_around _ _ _ H1 H2). reflexivity. }
  split; [exact Hl |].
  induction lines as [| l lines IH]; intros st; cbn [map parse_lines].
  - reflexivity.
  - change (l ++ [CR]) with ([] ++ l ++ [CR]).
    rewrite (Hl st [] l [CR]); [| constructor | repeat constructor].
    destruct (parse_line st l) as [st' | err]; cbn [rbind]; [apply IH | reflexivity].
Qed.

Lemma line_whitespace_is_ignored_witness :
  parse_line smith_open (str_of "  " ++ earning_line ++ [CR])
  = parse_line smith_open earning_line.
Proof. apply (proj1 line_whitespace_is_ignored); repeat constructor. Defined.

(** ** clean_currency and the characters it drops *)

(** X12: [clean_currency] sees only the digits, points and minus signs of
    its argument: two strings with the same such characters in the same
    order have the same result, whatever else they hold. *)
Theorem clean_currency_ignores_other_characters (v w : str) :
  List.filter is_kept v = List.filter is_kept w ->
  clean_currency (Some v) = clean_currency (Some w).
Proof.
  intros H. rewrite !clean_currency_refines. unfold numeric_cleaning.
  rewrite H. reflexivity.
Qed.

Lemma clean_currency_ignores_other_characters_witness :
  clean_currency (Some (str_of "$ 1,234.56 USD")) = clean_currency (Some (str_of "1234.56")).
Proof.
  apply clean_currency_ignores_other_characters. vm_compute. reflexivity.
Defined.

(** ** A header line with totals *)

(** X13: a header line that has no earnings row and on which the total
    pattern matches opens its employee and sets that employee's totals at
    once: the employees before it are kept, the new one has no entry and
    the two totals of the line. *)
Theorem header_line_takes_its_own_totals
    (st : loop_state) (raw emp_id emp_name : str) (m : groups) (g1 g2 : str) :
  header_of raw = Some (emp_id, emp_name) ->
  re_search earning_re (strip raw) = None ->
  re_search total_re (strip raw) = Some m ->
  group m 1 = Ok g1 -> group m 2 = Ok g2 ->
  parse_line st raw =
    Ok {| st_employees :=
            st_employees st ++
              [ {| employee_id := emp_id; employee_name := emp_name;
                   earnings := [];
                   total_hours := Some (numeric_cleaning (Some g1));
                   total_amount := Some (numeric_cleaning (Some g2)) |} ];
          current_employee := Some (length (st_employees st)) |}.
Proof.
  intros Hh He Ht H1 H2.
  rewrite (parse_line_header st raw emp_id emp_name Hh).
  pose proof (total_match_marker _ _ Ht) as Hm.
  unfold absorb.
  rewrite (proj2 (entry_of_none raw) He).
  rewrite (totals_of_matched raw m g1 g2 He Hm Ht H1 H2).
  reflexivity.
Qed.

Lemma header_line_takes_its_own_totals_witness :
  parse_line fresh (str_of "1001 - Smith, John Total Earnings: 5.00 50.00") =
    Ok {| st_employees :=
            st_employees fresh ++
              [ {| employee_id := str_of "1001"; employee_name := str_of "Smith, John";
                   earnings := [];
                   total_hours := Some (numeric_cleaning (Some (str_of "5.00")));
                   total_amount := Some (numeric_cleaning (Some (str_of "50.00"))) |} ];
          current_employee := Some (length (st_employees fresh)) |}.
Proof.
  apply (header_line_takes_its_own_totals fresh _ _ _
           [(2%nat, str_of "50.00"); (1%nat, str_of "5.00")]);
    vm_compute; reflexivity.
Defined.

(** ** The script *)

Lemma printed_refl (w : world) : printed w w.
Proof. split; [reflexivity |]. exists []. symmetry. apply app_nil_r. Qed.

Lemma printed_trans (w1 w2 w3 : world) : printed w1 w2 -> printed w2 w3 -> printed w1 w3.
Proof.
  intros (Hw & o1 & H1) (Hw' & o2 & H2). split; [congruence |].
  exists (o1 ++ o2). rewrite H2, H1, app_assoc. reflexivity.
Qed.

Lemma printed_print (s : str) (w : world) : printed w (print s w).
Proof. split; [reflexivity |]. exists (s ++ LF). reflexivity. Qed.

Lemma row_text_numbers (lead : str) (x : earning) :
  if has_numbers x then exists t, row_text lead x = Some t
  else row_text lead x = None.
Proof.
  unfold has_numbers, row_text.
  destruct (rate x), (hours x), (amount x); simpl; eauto.
Qed.

Lemma print_rows_outcome (rows : list earning) :
  forall w, exists w',
    printed w w' /\
    print_rows rows w =
      (w', if forallb has_numbers rows then None else Some TypeError).
Proof.
  induction rows as [| x rows IH]; intros w; cbn [print_rows forallb].
  - exists w. split; [apply printed_refl | reflexivity].
  - pose proof (row_text_numbers [] x) as Hx.
    destruct (has_numbers x); cbn [andb].
    + destruct Hx as [t ->]. destruct (IH (print t w)) as (w' & Hp & ->).
      exists w'. split; [| reflexivity].
      eapply printed_trans; [apply printed_print | exact Hp].
    + rewrite Hx. exists w. split; [apply printed_refl | reflexivity].
Qed.

Lemma print_earnings_outcome (e : employee) (w : world) :
  exists w',
    printed w w' /\
    print_earnings e w =
      (w', if forallb has_numbers (earnings e) then None else Some TypeError).
Proof.
  unfold print_earnings. destruct (earnings e) as [| x rows]; cbn [forallb].
  - exists w. split; [apply printed_refl | reflexivity].
  - pose proof (row_text_numbers
                  (employee_id e ++ [32; 8211; 32] ++ employee_name e) x) as Hx.
    destruct (has_numbers x); cbn [andb].
    + destruct Hx as [t ->].
      destruct (print_rows_outcome rows (print t w)) as (w' & Hp & ->).
      exists w'. split; [| reflexivity].
      eapply printed_trans; [apply printed_print | exact Hp].
    + rewrite Hx. exists w. split; [apply printed_refl | reflexivity].
Qed.

Lemma print_totals_outcome (e : employee) (w : world) :
  totals_form e ->
  exists w',
    printed w w' /\
    print_totals e w =
      (w', if negb (truthy (total_amount e))
              || match total_hours e with Some (Some _) => true | _ => false end
           then None else Some TypeError).
Proof.
  unfold totals_form, print_totals, totals_text. intros Hf.
  destruct (total_amount e) as [[a |] |]; cbn [truthy negb orb];
    try (exists w; split; [apply printed_refl | reflexivity]).
  destruct (total_hours e) as [[h |] |]; [| | destruct Hf].
  - destruct a; cbn [negb orb format_number option_map];
      try (exists w; split; [apply printed_refl | reflexivity]);
      (eexists; split; [| reflexivity]);
      (eapply printed_trans; apply printed_print).
  - destruct a; cbn [negb orb format_number option_map];
      exists w; (split; [apply printed_refl | reflexivity]).
Qed.

Lemma print_employee_outcome (e : employee) (w : world) :
  totals_form e ->
  exists w',
    printed w w' /\
    print_employee e w = (w', if printable e then None else Some TypeError).
Proof.
  intros Hf. unfold print_employee, printable.
  destruct (print_earnings_outcome e w) as (w1 & Hp1 & ->).
  destruct (forallb has_numbers (earnings e)); cbn [andb].
  - destruct (print_totals_outcome e (print LF w1) Hf) as (w' & Hp & ->).
    exists w'. split; [| reflexivity].
    eapply printed_trans; [exact Hp1 |].
    eapply printed_trans; [apply printed_print | exact Hp].
  - exists w1. split; [exact Hp1 | reflexivity].
Qed.

Lemma print_employees_outcome (es : list employee) :
  Forall totals_form es ->
  forall w, exists w',
    printed w w' /\
    print_employees es w =
      (w', if forallb printable es then None else Some TypeError).
Proof.
  induction 1 as [| e es He Hes IH]; intros w; cbn [print_employees forallb].
  - exists w. split; [apply printed_refl | reflexivity].
  - destruct (print_employee_outcome e w He) as (w1 & Hp1 & ->).
    destruct (printable e); cbn [andb].
    + destruct (IH w1) as (w' & Hp & ->). exists w'. split; [| reflexivity].
      eapply printed_trans; eassumption.
    + exists w1. split; [exact Hp1 | reflexivity].
Qed.

Lemma pages_form (pages : pdf) :
  Forall employee_form (concat (map page_employees pages)).
Proof.
  induction pages as [| page pages IH]; simpl; [constructor |].
  apply Forall_app. split; [apply page_employees_form | exact IH].
Qed.

Lemma pages_totals_form (pages : pdf) :
  Forall totals_form (concat (map page_employees pages)).
Proof.
  eapply Forall_impl; [apply pages_form |].
  intros e (_ & _ & _ & Ht). exact Ht.
Qed.

Lemma script_run (pages : pdf) (w : world) :
  exists w1,
    printed w w1 /\
    script pages w =
      if forallb printable (concat (map page_employees pages))
      then (print (LF ++ [10003] ++ str_of " JSON exported to: output.json")
              (write_file (str_of "output.json")
                 (to_json {| pdf_path := str_of "invoice.pdf";
                             data := {| employees :=
                                          concat (map page_employees pages) |} |})
                 (print (times 61 120) w1)), None)
      else (w1, Some TypeError).
Proof.
  unfold script, extract. rewrite extract_pages_apart. cbn [rbind].
  cbn [init data employees pdf_path app].
  set (es := concat (map page_employees pages)).
  set (d := {| employees := es |}).
  destruct (print_employees_outcome es (pages_totals_form pages) (print_head d w))
    as (w1 & Hp & Hr).
  exists w1. split.
  - eapply printed_trans; [| exact Hp]. unfold print_head.
    repeat (eapply printed_trans; [| apply printed_print]). apply printed_refl.
  - change (employees d) with es. rewrite Hr.
    destruct (forallb printable es); reflexivity.
Qed.

(** X14: the script ends well exactly when the table can show every
    employee, and with a [TypeError] otherwise, never with another
    exception.  It writes [output.json], with the document of [to_json],
    only when it ends well: after a [TypeError] no file is written.  What
    was on the standard output stays there. *)
Theorem script_outcome (pages : pdf) (w : world) :
  exists w',
    script pages w =
      (w', if forallb printable (concat (map page_employees pages))
           then None else Some TypeError) /\
    (exists out, stdout w' = stdout w ++ out) /\
    written w' =
      written w ++
        (if forallb printable (concat (map page_employees pages))
         then [(str_of "output.json",
                to_json {| pdf_path := str_of "invoice.pdf";
                           data := {| employees :=
                                        concat (map page_employees pages) |} |})]
         else []).
Proof.
  destruct (script_run pages w) as (w1 & (Hw & out & Ho) & Hs).
  rewrite Hs. destruct (forallb printable (concat (map page_employees pages))).
  - eexists. split; [reflexivity |]. split.
    + cbn [print write_file stdout]. rewrite Ho, <- !app_assoc. eexists. reflexivity.
    + cbn [print write_file written]. rewrite Hw. reflexivity.
  - exists w1. split; [reflexivity |]. split.
    + exists out. exact Ho.
    + rewrite Hw. symmetry. apply app_nil_r.
Qed.

Lemma section_employee (pre seg post : list str) (h emp_id emp_name : str) :
  header_of h = Some (emp_id, emp_name) ->
  no_header seg -> header_led post ->
  In (fold_left absorb (h :: seg) (new_employee emp_id emp_name))
     (records_from None (pre ++ h :: seg ++ post)).
Proof.
  intros Hh Hs Hp.
  assert (Hl : header_led (h :: seg ++ post))
    by (simpl; eapply header_of_is_header; exact Hh).
  rewrite (records_from_app pre _ Hl).
  change (h :: seg ++ post) with ((h :: seg) ++ post).
  rewrite (records_from_app _ _ Hp), (records_from_section h emp_id emp_name seg Hh Hs).
  apply in_or_app. right. apply in_or_app. left. left. reflexivity.
Qed.

Lemma fold_absorb_entry (seg : list str) (raw : str) (x : earning) :
  In raw seg -> entry_of raw = Some x ->
  forall e, In x (earnings (fold_left absorb seg e)).
Proof.
  intros Hin Hx e. rewrite fold_absorb_earnings. apply in_or_app. right.
  induction seg as [| l seg IH]; [destruct Hin |].
  cbn [omap list_omap]. destruct Hin as [-> | Hin].
  - rewrite Hx. left. reflexivity.
  - destruct (entry_of l); [right |]; apply IH; exact Hin.
Qed.

Lemma not_printable (e : employee) (x : earning) :
  In x (earnings e) -> has_numbers x = false -> printable e = false.
Proof.
  intros Hin Hx. unfold printable.
  destruct (forallb has_numbers (earnings e)) eqn:E; [| reflexivity].
  rewrite forallb_forall in E. rewrite (E x Hin) in Hx. discriminate.
Qed.

(** X15: an earnings row one of whose numbers cleans to [None], on a header
    line or after one on its page, stops the script with a [TypeError], and
    [output.json] is not written. *)
Theorem null_number_stops_the_script
    (before after : pdf) (text : str) (pre seg post : list str)
    (h emp_id emp_name raw : str) (x : earning) (w : world) :
  split_lines text = pre ++ h :: seg ++ post ->
  header_of h = Some (emp_id, emp_name) ->
  no_header seg -> header_led post ->
  In raw (h :: seg) ->
  entry_of raw = Some x ->
  has_numbers x = false ->
  exists w',
    script (before ++ Some text :: after) w = (w', Some TypeError) /\
    written w' = written w.
Proof.
  intros Ht Hh Hs Hp Hin Hx Hn.
  assert (E : forallb printable
                (concat (map page_employees (before ++ Some text :: after))) = false).
  { destruct (forallb printable _) eqn:E; [| reflexivity].
    rewrite forallb_forall in E.
    set (e := fold_left absorb (h :: seg) (new_employee emp_id emp_name)).
    assert (He : printable e = false).
    { apply (not_printable e x); [| exact Hn].
      apply (fold_absorb_entry (h :: seg) raw x Hin Hx). }
    assert (He' : printable e = true); [| congruence].
    apply E. rewrite map_app, concat_app. apply in_or_app. right.
    cbn [map concat]. apply in_or_app. left.
    rewrite page_employees_records, Ht.
    apply section_employee; assumption. }
  destruct (script_run (before ++ Some text :: after) w) as (w1 & (Hw & _) & Hr).
  rewrite E in Hr. exists w1. split; [exact Hr | exact Hw].
Qed.

Lemma null_number_stops_the_script_witness :
  exists w',
    script ([None] ++ Some (smith_header ++ LF ++ earning_line ++ LF
                            ++ str_of "Hourly- 01/02/25 1.2.3 5.00 50.00") :: [])
           {| stdout := []; written := [] |} = (w', Some TypeError) /\
    written w' = written {| stdout := []; written := [] |}.
Proof.
  apply (null_number_stops_the_script [None] [] _ []
           [earning_line; str_of "Hourly- 01/02/25 1.2.3 5.00 50.00"] []
           smith_header (str_of "1001") (str_of "Smith, John")
           (str_of "Hourly- 01/02/25 1.2.3 5.00 50.00")
           {| type := Hourly; date := str_of "01/02/25"; rate := None;
              hours := numeric_cleaning (Some (str_of "5.00"));
              amount := numeric_cleaning (Some (str_of "50.00")) |}).
  - vm_compute. reflexivity.
  - vm_compute. reflexivity.
  - by_evaluation.
  - exact I.
  - right. right. left. reflexivity.
  - vm_compute. reflexivity.
  - vm_compute. reflexivity.
Defined.

(** ** Header lines *)

Lemma run_stops (p q : char -> bool) (w s : str) :
  (forall c, q c = true -> p c = false) ->
  run q w -> stops p s -> stops p (w ++ s).
Proof.
  intros Hpq Hw Hs. destruct Hw as [| c w Hc _]; [exact Hs |]. simpl. auto.
Qed.

Lemma space_not_digit (c : char) : is_space c = true -> is_digit c = false.
Proof.
  intros H. destruct (is_digit c) eqn:E; [| reflexivity].
  apply digit_not_space in E. congruence.
Qed.

Lemma dash_cases (c : char) : is_dash c = true -> c = EN_DASH \/ c = 45.
Proof.
  unfold is_dash. intros H. apply orb_prop in H.
  destruct H as [H | H]; apply Z.eqb_eq in H; auto.
Qed.

Lemma dash_not_digit (c : char) : is_dash c = true -> is_digit c = false.
Proof. intros H. destruct (dash_cases c H) as [-> | ->]; vm_compute; reflexivity. Qed.

Lemma dash_not_space (c : char) : is_dash c = true -> is_space c = false.
Proof. intros H. destruct (dash_cases c H) as [-> | ->]; vm_compute; reflexivity. Qed.

(** A header line is matched, with the identifier and the name as the
    groups. *)
Lemma header_complete (emp_id name line : str) :
  header_line emp_id name line ->
  re_match header_re line = Some [(2%nat, name); (1%nat, emp_id)].
Proof.
  intros (w1 & dash & w2 & rest & -> & Hi & Hw1 & Hd & Hw2 & Hn & Hr).
  destruct Hn as (surname & w3 & given & -> & Hs & Hw3 & Hg).
  unfold re_match, match_at.
  replace (emp_id ++ w1 ++ [dash] ++ w2 ++ (surname ++ str_of "," ++ w3 ++ given) ++ rest)
    with ((emp_id ++ w1 ++ [dash] ++ w2 ++ surname ++ str_of "," ++ w3 ++ given) ++ rest)
    by (rewrite <- !app_assoc; reflexivity).
  apply (exec_first header_re 0 _ rest []
           [(2%nat, surname ++ str_of "," ++ w3 ++ given); (1%nat, emp_id)]);
    [| reflexivity].
  unfold header_re, plus, star. simpl.
  exists [], (emp_id ++ w1 ++ dash :: w2 ++ surname ++ 44 :: w3 ++ given); eexists.
  split; [reflexivity |]. split; [repeat split |].
  exists emp_id, (w1 ++ dash :: w2 ++ surname ++ 44 :: w3 ++ given); eexists.
  split; [reflexivity |]. split.
  { eexists. split; [| reflexivity]. destruct Hi as [Hr1 Hl1].
    repeat split; try assumption. right. rewrite <- app_assoc.
    apply (run_stops is_digit is_space); [exact space_not_digit | exact Hw1 |].
    simpl. apply dash_not_digit, Hd. }
  exists w1, (dash :: w2 ++ surname ++ 44 :: w3 ++ given); eexists.
  split; [reflexivity |]. split.
  { repeat split; try assumption; try lia. right. simpl. apply dash_not_space, Hd. }
  exists [dash], (w2 ++ surname ++ 44 :: w3 ++ given); eexists.
  split; [reflexivity |]. split; [exists dash; repeat split; exact Hd |].
  exists w2, (surname ++ 44 :: w3 ++ given); eexists.
  split; [reflexivity |]. split.
  { repeat split; try assumption; try lia. right. rewrite <- app_assoc.
    apply (token_stops is_space is_letter); [exact letter_not_space | exact Hs]. }
  eexists. split; [| reflexivity].
  exists surname, (44 :: w3 ++ given); eexists.
  split; [reflexivity |]. split.
  { destruct Hs as [Hr1 Hl1]. repeat split; try assumption. right. reflexivity. }
  exists (str_of ","), (w3 ++ given); eexists.
  split; [reflexivity |]. split; [split; reflexivity |].
  exists w3, given; eexists.
  split; [reflexivity |]. split.
  { repeat split; try assumption; try lia. right.
    apply (token_stops is_space is_letter); [exact letter_not_space | exact Hg]. }
  destruct Hg as [Hr1 Hl1]. repeat split; try assumption. right. exact Hr.
Qed.

Lemma name_form_extend (name t : str) :
  name_form name -> run is_letter t -> name_form (name ++ t).
Proof.
  intros (surname & w & given & -> & Hs & Hw & Hg) Ht.
  exists surname, w, (given ++ t). rewrite <- !app_assoc.
  split; [reflexivity |]. repeat split; try apply Hs; try assumption;
    apply (token_extend _ _ _ Hg Ht).
Qed.

(** What the header pattern matches is a header line: the name ends where
    the letters end. *)
Lemma header_match_exact (line : str) (g : groups) :
  re_match header_re line = Some g ->
  exists emp_id name,
    header_line emp_id name line /\ g = [(2%nat, name); (1%nat, emp_id)].
Proof.
  intros H. pose proof H as H0. apply match_at_sound in H0.
  destruct H0 as (t & s' & -> & Hm).
  unfold header_re, plus, star in Hm. simpl in Hm. break.
  destruct (span is_letter s') as (t & rest & -> & Ht & Hs).
  match goal with
  | |- context [(1%nat, ?i)] => set (emp_id := i) in *
  end.
  match goal with
  | |- context [(2%nat, ?n)] => set (name := n) in *
  end.
  assert (Hn : name_form name)
    by (eexists _, _, _; split; [reflexivity |];
        unfold token; repeat split; assumption).
  match type of H with
  | re_match _ (([] ++ _ ++ ?w1 ++ [?d] ++ ?w2 ++ _) ++ _) = _ =>
      assert (Hl : header_line emp_id (name ++ t)
                     (([] ++ emp_id ++ w1 ++ [d] ++ w2 ++ name) ++ t ++ rest))
        by (exists w1, d, w2, rest;
            split; [rewrite <- !app_assoc; reflexivity |];
            unfold token; repeat split; try assumption;
            apply name_form_extend; assumption)
  end.
  pose proof (header_complete _ _ _ Hl) as Hm.
  rewrite H in Hm. injection Hm as Hc.
  assert (t = []) as ->.
  { apply (f_equal length) in Hc. rewrite length_app in Hc.
    destruct t; [reflexivity | simpl in Hc; lia]. }
  rewrite app_nil_r in Hl. exists emp_id, name. split; [exact Hl | reflexivity].
Qed.

(** X16: a line is a header line exactly when, stripped, it begins with
    decimal digits, a hyphen or an EN DASH with white space around it if
    any, letters, a comma, white space if any, and letters; the identifier
    is the digits and the name runs to the last of the letters, whatever
    follows on the line. *)
Theorem header_line_iff (raw emp_id name : str) :
  header_of raw = Some (emp_id, name) <-> header_line emp_id name (strip raw).
Proof.
  unfold header_of. split.
  - intros H.
    destruct (re_match header_re (strip raw)) as [g |] eqn:Hg; [| discriminate].
    destruct (header_match_exact _ _ Hg) as (i & n & Hl & ->).
    simpl in H. pose proof Hl as (_ & _ & _ & _ & _ & _ & _ & _ & _ & Hn & _).
    rewrite (strip_name _ Hn) in H. injection H as <- <-. exact Hl.
  - intros Hl. rewrite (header_complete _ _ _ Hl). simpl.
    pose proof Hl as (_ & _ & _ & _ & _ & _ & _ & _ & _ & Hn & _).
    rewrite (strip_name _ Hn). reflexivity.
Qed.

Lemma header_line_iff_witness :
  header_line (str_of "1001") (str_of "Smith, John")
    (strip (str_of "  1001 - Smith, John22 (page 2)")).
Proof. apply (proj1 (header_line_iff _ _ _)). vm_compute. reflexivity. Defined.

(** ** The JSON document and the data *)






